(** * FunPayCardinal: event handlers, delivery workflow and listing raise

    A shallow embedding of [FunPayAPI/account.py] (the message send and the
    category raise of [Account]), [FunPayAPI/orders.py] and [handlers.py]
    (command responses and product delivery), followed by the properties
    of the dispatch, raise and delivery workflows.

    Python strings are byte strings holding UTF-8 text.  Substring search
    over well-formed UTF-8 coincides with substring search over code
    points, so [in] on [str] is modelled on the bytes.  JSON numbers are
    integers here; floating point values are not modelled. *)

From stdpp Require Import gmap strings list fin_maps.
From Stdlib Require Import ZArith QArith_base.

Set Warnings "-register-all".
Open Scope Z_scope.

(** ** Python values, exceptions *)

(** The values [json.loads] produces. *)
Inductive pyval : Type :=
| PNone
| PBool (b : bool)
| PInt (z : Z)
| PStr (s : string)
| PList (l : list pyval)
| PDict (d : gmap string pyval).

(** Truth value testing ([if v], [not v], [a and b]). *)
Definition truthy (v : pyval) : bool :=
  match v with
  | PNone => false
  | PBool b => b
  | PInt z => negb (z =? 0)
  | PStr s => negb (String.eqb s "")
  | PList l => match l with [] => false | _ :: _ => true end
  | PDict d => match map_to_list d with [] => false | _ :: _ => true end
  end.

(** [v is None]. *)
Definition is_None (v : pyval) : bool :=
  match v with PNone => true | _ => false end.

(** Exception classes that occur in the modelled code.  [KeyboardInterrupt]
    derives from [BaseException] only: a bare [except:] catches it, an
    [except Exception] does not. *)
Inductive exn_class :=
| Exception | KeyError | TypeError | AttributeError | ValueError
| IndexError | FileNotFoundError | ConnectionError | JSONDecodeError
| KeyboardInterrupt.

Record exn := Exn { exn_cls : exn_class; exn_str : string }.

Definition is_Exception (e : exn) : bool :=
  match exn_cls e with KeyboardInterrupt => false | _ => true end.

Inductive result (A : Type) : Type :=
| Ok (a : A)
| Raise (e : exn).
Arguments Ok {A} a.
Arguments Raise {A} e.

(** [str(KeyError(k))] is the [repr] of the key. *)
Definition key_error (k : string) : exn :=
  Exn KeyError (String.append "'" (String.append k "'")).

(** ** Strings *)

(** [sub in s] for two [str]. *)
Fixpoint str_in (sub s : string) : bool :=
  String.prefix sub s ||
  match s with
  | EmptyString => false
  | String _ s' => str_in sub s'
  end.

(** [s.replace(old, new)]: leftmost non-overlapping occurrences; [skip]
    counts the characters of a matched occurrence still to be dropped. *)
Fixpoint str_replace_aux (old new : string) (skip : nat) (s : string) : string :=
  match s with
  | EmptyString =>
      match old with EmptyString => new | String _ _ => EmptyString end
  | String c s' =>
      match skip with
      | S k => str_replace_aux old new k s'
      | O =>
          if String.prefix old s then
            match old with
            | EmptyString =>
                String.append new (String c (str_replace_aux old new O s'))
            | String _ old' =>
                String.append new (str_replace_aux old new (String.length old') s')
            end
          else String c (str_replace_aux old new O s')
      end
  end.

Definition str_replace (s old new : string) : string :=
  str_replace_aux old new O s.

(** Built-ins whose Unicode tables are not reproduced: [str.strip],
    [str.lower] and [int] applied to a [str]. *)
Class PyBuiltins := {
  str_strip : string -> string;
  str_lower : string -> string;
  py_int : string -> result Z
}.

(** ** The data model *)

(** [FunPayAPI/enums.py] *)
Inductive OrderStatuses := OUTSTANDING | COMPLETED | REFUND.
Inductive CategoryTypes := LOT | CURRENCY.
Inductive Links := BASE_URL | ORDERS | RUNNER | RAISE.

(** [FunPayAPI/orders.py], class [Order]. *)
Record Order := {
  order_id : string;
  order_title : string;
  order_price : Q;
  order_buyer_name : string;
  order_buyer_id : Z;
  order_status : OrderStatuses
}.

(** The fields of [Category] that [account.py] reads. *)
Record Category := {
  category_id : Z;
  category_game_id : option Z;
  category_title : string;
  category_type : CategoryTypes
}.

(** The fields of [MessageEvent] that [handlers.py] reads and rebuilds. *)
Record MessageEvent := {
  node_id : Z;
  message_text : string;
  sender_username : string;
  send_time : Z;
  tag : string
}.

(** [account.py], [RaiseCategoriesResponse]. *)
Record RaiseCategoriesResponse := {
  complete : bool;
  wait : Z;
  raised_category_names : list string;
  response : pyval
}.

(** ** The world the code acts on *)

(** Form data of the two kinds of POST request. *)
Inductive Payload :=
| ChatMessage (node : option Z) (content : string)
| RaiseRequest (game_id : option Z) (node : Z) (node_ids : option (list string)).

(** What [requests.post] hands back: a status code and the outcome of
    decoding the body with [.json()]. *)
Record Response := {
  status_code : Z;
  json : result pyval
}.

Inductive LogLevel := DEBUG | INFO | WARNING | ERROR.

(** One constructor per logging call site, holding the values that are
    interpolated into its message. *)
Inductive LogMsg :=
| MsgResponseSent (username : string)
| MsgResponseSendError (username : string)
| MsgRaw (v : pyval)
| MsgCommandReceived (command username : string) (node : Z)
| MsgResponseUnexpectedError (username : string)
| MsgTraceback (e : exn)
| MsgNextAttempt
| MsgResponseAttemptsExceeded
| MsgProductSendError (order : string)
| MsgLotNotInConfig (title : string)
| MsgDeliveryAttemptsExceeded (order : string)
| MsgDelivered (order : string)
| MsgDeliveryUnexpectedError (order : string)
| MsgHandlerError (handler : string).

(** The positional arguments of a dispatch, without the [cardinal] every
    handler receives as its context: handlers are closed over it. *)
Inductive HandlerArgs :=
| MessageArgs (msg : MessageEvent)
| OrdersUpdateArgs
| OrderArgs (order : Order)
| DeliveryArgs (order : Order) (delivery_text : string) (errored : option bool)
| RaiseArgs (game_id : Z) (category_names : list string) (wait_time : Z)
| NoArgs.

(** What the code does to its surroundings: a call of
    [Account.send_message], a POST request, a [time.sleep], a log record,
    and the entry of a handler that announces itself. *)
Inductive Event :=
| EvSendMessage (node : option Z) (text : string)
| EvPost (link : Links) (payload : Payload)
| EvSleep (seconds : Z)
| EvLog (level : LogLevel) (msg : LogMsg)
| EvHandler (handler : string) (args : HandlerArgs).

(** [network]: the outcomes of the coming [requests.post] calls, in order
    (a call beyond the end fails to connect); [trace]: everything done so
    far, oldest first; [products]: the product files by path;
    [last_messages]: [cardinal.runner.last_messages]. *)
Record World := {
  network : list (result Response);
  trace : list Event;
  products : gmap string (list string);
  last_messages : gmap Z MessageEvent
}.

(** ** State and exceptions *)

(** A computation runs on a world and ends in a value or an exception;
    the world reached is kept in both cases. *)
Definition M (A : Type) : Type := World -> result A * World.

Definition ret {A} (a : A) : M A := fun w => (Ok a, w).

Definition raise {A} (e : exn) : M A := fun w => (Raise e, w).

Definition bind {A B} (m : M A) (k : A -> M B) : M B :=
  fun w =>
    match m w with
    | (Ok a, w') => k a w'
    | (Raise e, w') => (Raise e, w')
    end.

Declare Scope py_scope.
Delimit Scope py_scope with py.
Notation "x <- m ;; k" := (bind m (fun x => k))
  (at level 100, m at next level, right associativity) : py_scope.
Notation "m ;; k" := (bind m (fun _ => k))
  (at level 100, right associativity) : py_scope.
Open Scope py_scope.

(** [try: m  except: ...] with a bare [except]: the outcome is reified. *)
Definition try_ {A} (m : M A) : M (result A) :=
  fun w => let '(r, w') := m w in (Ok r, w').

(** [try: m  except Exception as e: h e]. *)
Definition try_except_Exception {A} (m : M A) (h : exn -> M A) : M A :=
  fun w =>
    match m w with
    | (Ok a, w') => (Ok a, w')
    | (Raise e, w') => if is_Exception e then h e w' else (Raise e, w')
    end.

Definition lift {A} (r : result A) : M A := fun w => (r, w).

(** The world with more events on its trace. *)
Definition extend (events : list Event) (w : World) : World :=
  {| network := network w; trace := trace w ++ events;
     products := products w; last_messages := last_messages w |}.

Definition emit (ev : Event) : M unit := fun w => (Ok tt, extend [ev] w).

Definition log (level : LogLevel) (msg : LogMsg) : M unit :=
  emit (EvLog level msg).

(** [time.sleep] *)
Definition sleep (seconds : Z) : M unit := emit (EvSleep seconds).

(** The world once a request went out: its answer is consumed. *)
Definition posted (link : Links) (payload : Payload) (w : World) : World :=
  {| network := tail (network w);
     trace := trace w ++ [EvPost link payload];
     products := products w;
     last_messages := last_messages w |}.

(** [requests.post(link, data=payload)] *)
Definition requests_post (link : Links) (payload : Payload) : M Response :=
  fun w =>
    match network w with
    | [] => (Raise (Exn ConnectionError ""), posted link payload w)
    | r :: _ => (r, posted link payload w)
    end.

(** [d.get(key)] on a value: [None] for an absent key. *)
Definition dict_get (d : gmap string pyval) (key : string) : pyval :=
  default PNone (d !! key).

Definition py_get (v : pyval) (key : string) : result pyval :=
  match v with
  | PDict d => Ok (dict_get d key)
  | _ => Raise (Exn AttributeError "object has no attribute 'get'")
  end.

(** [d[key]] on a mapping. *)
Definition index {V} (d : gmap string V) (key : string) : result V :=
  match d !! key with
  | Some v => Ok v
  | None => Raise (key_error key)
  end.

(** [needle in v] for a [str] needle. *)
Definition py_contains (needle : string) (v : pyval) : result bool :=
  match v with
  | PStr s => Ok (str_in needle s)
  | PList l =>
      Ok (existsb (fun x => match x with
                            | PStr s => String.eqb needle s
                            | _ => false
                            end) l)
  | PDict d => Ok (bool_decide (is_Some (d !! needle)))
  | _ => Raise (Exn TypeError "argument is not iterable")
  end.

(** ** Collaborators outside the sources *)

(** A [div] of class [checkbox] of the modal form, as the lookups of the
    loop see it: [cb.find("input")["value"]] and [cb.find("label").text],
    each of which raises when the element or the attribute is missing. *)
Record Checkbox := {
  cb_input_value : result string;
  cb_label_text : result string
}.

(** [bs4.BeautifulSoup] (third party): the checkboxes [find_all] finds in
    the parsed modal, and the chat of a user in the saved chats page, with
    [int(user_box.parent["data-id"])] evaluated. *)
Class Soup := {
  find_checkboxes : pyval -> result (list Checkbox);
  find_chat_node : string -> string -> option (result Z)
}.

(** [FunPayAPI/other.py] is not among the sources: the parser of the
    cooldown message is a parameter of the raise. *)
Class FunPayOther := {
  get_wait_time_from_raise_response : pyval -> result Z
}.

(** [Utils/cardinal_tools.py] is not among the sources: the two template
    renderers are parameters of the handlers. *)
Class CardinalTools := {
  format_msg_text : string -> MessageEvent -> string;
  format_order_text : string -> Order -> string
}.

(** Modelled from the spec: [cardinal_tools.get_product_from_json] is not
    among the sources.  The spec's inventory source has
    [popOne() -> item | Empty]: one unit is taken out of the product file
    at [path]; the caller reads the unit at position 0 of what is
    returned, the second component is the number of units left. *)
Definition get_product_from_json (path : string) : M (string * Z) :=
  fun w =>
    match products w !! path with
    | None => (Raise (Exn FileNotFoundError path), w)
    | Some [] => (Raise (Exn IndexError "no products"), w)
    | Some (product :: rest) =>
        (Ok (product, Z.of_nat (length rest)),
         {| network := network w; trace := trace w;
            products := <[path := rest]> (products w);
            last_messages := last_messages w |})
    end.

(** Modelled from the spec: [cardinal_tools.add_product_to_json] is not
    among the sources.  The spec's inventory source has
    [pushBack(item) -> void]: the unit is put back into the product file
    at [path]. *)
Definition add_product_to_json (path product : string) : M unit :=
  fun w =>
    match products w !! path with
    | None => (Raise (Exn FileNotFoundError path), w)
    | Some units =>
        (Ok tt,
         {| network := network w; trace := trace w;
            products := <[path := units ++ [product]]> (products w);
            last_messages := last_messages w |})
    end.

(** Modelled from the spec: [get_wait_time_from_raise_response] of
    [FunPayAPI/other.py] is not among the sources.  The spec extracts the
    cooldown from the message text by locating its numeric substring and
    returns a duration in seconds: the first run of decimal digits is
    read as that number of seconds. *)
Definition digit_of (c : Ascii.ascii) : option Z :=
  let n := Z.of_nat (Ascii.nat_of_ascii c) in
  if (48 <=? n) && (n <=? 57) then Some (n - 48) else None.

Fixpoint read_digits (acc : Z) (s : string) : Z :=
  match s with
  | EmptyString => acc
  | String c s' =>
      match digit_of c with
      | Some d => read_digits (10 * acc + d) s'
      | None => acc
      end
  end.

Fixpoint first_number (s : string) : option Z :=
  match s with
  | EmptyString => None
  | String c s' =>
      match digit_of c with
      | Some d => Some (read_digits d s')
      | None => first_number s'
      end
  end.

Definition wait_time_of_message (msg : pyval) : result Z :=
  match msg with
  | PStr s =>
      match first_number s with
      | Some seconds => Ok seconds
      | None => Raise (Exn ValueError "no duration in the message")
      end
  | _ => Raise (Exn TypeError "the message is not a str")
  end.

Definition spec_other : FunPayOther :=
  {| get_wait_time_from_raise_response := wait_time_of_message |}.

(** ** [FunPayAPI/account.py] *)

Record Account := {
  account_id : Z;
  account_username : string;
  chats_html : option string
}.

Section Account.
Context {builtins : PyBuiltins} {soup : Soup} {other : FunPayOther}.

(** [Account.send_message]; the headers, which carry the credentials,
    are left out. *)
Definition send_message (node : option Z) (text : string) : M pyval :=
  emit (EvSendMessage node text) ;;
  if String.eqb (str_strip text) "" then raise (Exn Exception "")
  else
    response <- requests_post RUNNER (ChatMessage node text) ;;
    lift (json response).

(** [Account.get_node_id_by_username] *)
Definition get_node_id_by_username (self : Account) (username : string)
    (force_request : bool) : M (option Z) :=
  match negb force_request, chats_html self with
  | true, Some html =>
      match find_chat_node html username with
      | Some node => n <- lift node ;; ret (Some n)
      | None => ret None
      end
  | _, _ => ret None
  end.

(** [Account.request_lots_raise] *)
Definition request_lots_raise (category : Category) : M pyval :=
  response <- requests_post RAISE
    (RaiseRequest (category_game_id category) (category_id category) None) ;;
  if negb (status_code response =? 200) then raise (Exn Exception "")
  else lift (json response).

(** [(exclude is not None and category_id not in exclude)
     or exclude is None] *)
Definition not_excluded (exclude : option (list string))
    (category_id : string) : bool :=
  match exclude with
  | Some ex => negb (bool_decide (category_id ∈ ex))
  | None => true
  end.

(** The loop over the checkboxes: the ids and the names it appends. *)
Fixpoint collect_checkboxes (exclude : option (list string))
    (checkboxes : list Checkbox) : result (list string * list string) :=
  match checkboxes with
  | [] => Ok ([], [])
  | cb :: rest =>
      match cb_input_value cb with
      | Raise e => Raise e
      | Ok category_id =>
          if not_excluded exclude category_id then
            match cb_label_text cb with
            | Raise e => Raise e
            | Ok category_name =>
                match collect_checkboxes exclude rest with
                | Raise e => Raise e
                | Ok (category_ids, category_names) =>
                    Ok (category_id :: category_ids,
                        category_name :: category_names)
                end
            end
          else collect_checkboxes exclude rest
      end
  end.

(** [Account.raise_game_categories].  The value is [None] when the
    function runs off its end without a [return]. *)
Definition raise_game_categories (category : Category)
    (exclude : option (list string)) : M (option RaiseCategoriesResponse) :=
  check <- request_lots_raise category ;;
  error <- lift (py_get check "error") ;;
  msg <- lift (py_get check "msg") ;;
  cooldown <- (if truthy error && truthy msg
               then lift (py_contains "Подождите" msg)
               else ret false) ;;
  if cooldown then
    wait_time <- lift (get_wait_time_from_raise_response msg) ;;
    ret (Some {| complete := false; wait := wait_time;
                 raised_category_names := []; response := check |})
  else if truthy error then
    ret (Some {| complete := false; wait := 10;
                 raised_category_names := []; response := check |})
  else if negb (is_None error) && negb (truthy error) then
    ret (Some {| complete := true; wait := 3600;
                 raised_category_names := [category_title category];
                 response := check |})
  else
    modal <- lift (py_get check "modal") ;;
    if truthy modal then
      checkboxes <- lift (find_checkboxes modal) ;;
      collected <- lift (collect_checkboxes exclude checkboxes) ;;
      let '(category_ids, category_names) := collected in
      http <- requests_post RAISE
        (RaiseRequest (category_game_id category) (category_id category)
                      (Some category_ids)) ;;
      response <- lift (json http) ;;
      submit_error <- lift (py_get response "error") ;;
      if negb (truthy submit_error) then
        ret (Some {| complete := true; wait := 3600;
                     raised_category_names := category_names;
                     response := response |})
      else
        ret (Some {| complete := false; wait := 10;
                     raised_category_names := [];
                     response := response |})
    else ret None.
End Account.

(** ** Handlers and their dispatch *)

(** The event kinds, after the [REGISTER_TO_..._EVENT] lists. *)
Inductive EventKind :=
| NEW_MESSAGE_EVENT | ORDERS_UPDATE_EVENT | NEW_ORDER_EVENT | DELIVERY_EVENT
| RAISE_EVENT | INIT_EVENT | START_EVENT | STOP_EVENT.

#[global] Instance EventKind_eq_dec : EqDecision EventKind.
Proof. solve_decision. Defined.

Record Handler := {
  handler_name : string;
  handler_call : HandlerArgs -> M unit
}.

(** Modelled from the spec: [Cardinal.run_handlers] is not among the
    sources.  The spec's dispatch invokes every handler of the sequence in
    registration order with the same arguments; an exception raised by a
    handler is caught and logged with the handler and the stack trace, and
    the handlers after it still run; there is no return value. *)
Definition call_isolated (handler : Handler) (args : HandlerArgs) : M unit :=
  outcome <- try_ (handler_call handler args) ;;
  match outcome with
  | Ok _ => ret tt
  | Raise e =>
      log ERROR (MsgHandlerError (handler_name handler)) ;;
      log DEBUG (MsgTraceback e)
  end.

Fixpoint run_handlers (handlers : list Handler) (args : HandlerArgs) : M unit :=
  match handlers with
  | [] => ret tt
  | handler :: rest =>
      call_isolated handler args ;;
      run_handlers rest args
  end.

(** Modelled from the spec: the handler registry maps an event kind to an
    ordered sequence of handlers; [register] appends, [dispatch] runs the
    sequence of the kind. *)
Definition HandlerRegistry := EventKind -> list Handler.

Definition empty_registry : HandlerRegistry := fun _ => [].

Definition register (kind : EventKind) (handler : Handler)
    (registry : HandlerRegistry) : HandlerRegistry :=
  fun k => if decide (k = kind) then registry k ++ [handler] else registry k.

Definition dispatch (registry : HandlerRegistry) (kind : EventKind)
    (args : HandlerArgs) : M unit :=
  run_handlers (registry kind) args.

(** Registering a list of handlers, first to last. *)
Definition register_all (kind : EventKind) (handlers : list Handler)
    (registry : HandlerRegistry) : HandlerRegistry :=
  fold_left (fun reg handler => register kind handler reg) handlers registry.

(** The registration lists of [handlers.py], by handler name. *)
Definition REGISTER_TO_NEW_MESSAGE_EVENT : list string :=
  ["log_msg_handler"; "send_response_handler";
   "send_command_notification_handler"].
Definition REGISTER_TO_RAISE_EVENT : list string :=
  ["send_categories_raised_notification_handler"].
Definition REGISTER_TO_ORDERS_UPDATE_EVENT : list string :=
  ["updates_lots_state_handler"].
Definition REGISTER_TO_NEW_ORDER_EVENT : list string :=
  ["send_new_order_notification_handler"; "delivery_product_handler"].
Definition REGISTER_TO_DELIVERY_EVENT : list string :=
  ["send_delivery_notification_handler"].

(** The fields of [Cardinal] the modelled handlers read. *)
Record Cardinal := {
  main_config : gmap string (gmap string string);
  auto_response_config : gmap string (gmap string string);
  auto_delivery_config : list (string * gmap string string);
  account : Account;
  delivery_event_handlers : list Handler
}.

Section Handlers.
Context {builtins : PyBuiltins} {soup : Soup} {tools : CardinalTools}.

(** [int(cardinal.main_config[section][option])] *)
Definition config_int (cardinal : Cardinal) (section option : string)
    : result Z :=
  match index (main_config cardinal) section with
  | Raise e => Raise e
  | Ok options =>
      match index options option with
      | Raise e => Raise e
      | Ok value => py_int value
      end
  end.

Definition config_flag (cardinal : Cardinal) (section option : string)
    : M Z :=
  lift (config_int cardinal section option).

(** [cardinal.runner.last_messages[node] = message] *)
Definition set_last_message (node : Z) (message : MessageEvent) : M unit :=
  fun w => (Ok tt, {| network := network w; trace := trace w;
                      products := products w;
                      last_messages := <[node := message]> (last_messages w) |}).

(** [send_response] *)
Definition send_response (msg : MessageEvent) (cardinal : Cardinal) : M bool :=
  command <- lift (index (auto_response_config cardinal)
                         (str_strip (message_text msg))) ;;
  template <- lift (index command "response") ;;
  let response_text := format_msg_text template msg in
  let new_msg_object :=
    {| node_id := node_id msg; message_text := response_text;
       sender_username := sender_username msg;
       send_time := send_time msg; tag := tag msg |} in
  response <- send_message (Some (node_id msg)) response_text ;;
  inner <- lift (py_get response "response") ;;
  sent <- (if truthy inner
           then error <- lift (py_get inner "error") ;; ret (is_None error)
           else ret false) ;;
  if sent then
    set_last_message (node_id msg) new_msg_object ;;
    log INFO (MsgResponseSent (sender_username msg)) ;;
    ret true
  else
    log WARNING (MsgResponseSendError (sender_username msg)) ;;
    log DEBUG (MsgRaw response) ;;
    ret false.

(** The [while not done and attempts] loop of [send_response_handler];
    the value is [done]. *)
Fixpoint send_response_attempts (attempts : nat) (msg : MessageEvent)
    (cardinal : Cardinal) : M bool :=
  match attempts with
  | O => ret false
  | S attempts' =>
      outcome <- try_ (send_response msg cardinal) ;;
      match outcome with
      | Raise e =>
          log ERROR (MsgResponseUnexpectedError (sender_username msg)) ;;
          log DEBUG (MsgTraceback e) ;;
          log INFO MsgNextAttempt ;;
          sleep 1 ;;
          send_response_attempts attempts' msg cardinal
      | Ok false =>
          log INFO MsgNextAttempt ;;
          sleep 1 ;;
          send_response_attempts attempts' msg cardinal
      | Ok true => ret true
      end
  end.

(** [send_response_handler] *)
Definition send_response_handler (msg : MessageEvent) (cardinal : Cardinal)
    : M unit :=
  enabled <- config_flag cardinal "FunPay" "AutoResponse" ;;
  if enabled =? 0 then ret tt
  else if negb (bool_decide (is_Some
            (auto_response_config cardinal
               !! str_lower (str_strip (message_text msg)))))
  then ret tt
  else
    log INFO (MsgCommandReceived (str_strip (message_text msg))
                (sender_username msg) (node_id msg)) ;;
    done <- send_response_attempts 3 msg cardinal ;;
    if negb done then log ERROR MsgResponseAttemptsExceeded
    else ret tt.

(** The [while attempts] loop of [send_product_text]. *)
Fixpoint send_product_attempts (attempts : nat) (node : option Z)
    (text order : string) : M bool :=
  match attempts with
  | O => ret false
  | S attempts' =>
      outcome <- try_ (send_message node text) ;;
      match outcome with
      | Ok _ => ret true
      | Raise e =>
          log ERROR (MsgProductSendError order) ;;
          log DEBUG (MsgTraceback e) ;;
          log INFO MsgNextAttempt ;;
          sleep 1 ;;
          send_product_attempts attempts' node text order
      end
  end.

(** [send_product_text] *)
Definition send_product_text (node : option Z) (text order : string)
    (cardinal : Cardinal) : M bool :=
  send_product_attempts 3 node text order.

(** [deliver_product]: [None] when no lot name of the configuration
    occurs in the title, else (result, text, remaining count). *)
Definition deliver_product (order : Order) (cardinal : Cardinal)
    : M (option (bool * string * Z)) :=
  match find (fun lot => str_in (fst lot) (order_title order))
             (auto_delivery_config cardinal) with
  | None => ret None
  | Some (_, delivery_obj) =>
      node <- get_node_id_by_username (account cardinal)
                (order_buyer_name order) false ;;
      template <- lift (index delivery_obj "response") ;;
      let response_text := format_order_text template order in
      match delivery_obj !! "productsFilePath" with
      | None =>
          result <- send_product_text node response_text
                      (order_title order) cardinal ;;
          ret (Some (result, response_text, -1))
      | Some path =>
          product <- get_product_from_json path ;;
          let product_text := fst product in
          let response_text :=
            str_replace response_text "$product" product_text in
          result <- send_product_text node response_text
                      (order_id order) cardinal ;;
          (if negb result then add_product_to_json path product_text
           else ret tt) ;;
          ret (Some (result, response_text, -1))
      end
  end.

(** [delivery_product_handler] *)
Definition delivery_product_handler (order : Order) (cardinal : Cardinal)
    : M unit :=
  enabled <- config_flag cardinal "FunPay" "autoDelivery" ;;
  if enabled =? 0 then ret tt
  else
    try_except_Exception
      (result <- deliver_product order cardinal ;;
       match result with
       | None => log INFO (MsgLotNotInConfig (order_title order))
       | Some (false, _, _) =>
           log ERROR (MsgDeliveryAttemptsExceeded (order_id order)) ;;
           run_handlers (delivery_event_handlers cardinal)
             (DeliveryArgs order "Превышено кол-во попыток." (Some true))
       | Some (true, text, _) =>
           log INFO (MsgDelivered (order_id order)) ;;
           run_handlers (delivery_event_handlers cardinal)
             (DeliveryArgs order text None)
       end)
      (fun e =>
         log ERROR (MsgDeliveryUnexpectedError (order_id order)) ;;
         log DEBUG (MsgTraceback e) ;;
         run_handlers (delivery_event_handlers cardinal)
           (DeliveryArgs order (exn_str e) (Some true))).
End Handlers.

(** ** Concrete collaborators and vocabulary of the statements *)

(** The ASCII fragment of the three built-ins. *)
Definition ascii_is_space (c : Ascii.ascii) : bool :=
  let n := Ascii.nat_of_ascii c in
  ((9 <=? n)%nat && (n <=? 13)%nat) || (n =? 32)%nat.

Fixpoint ascii_lstrip (s : string) : string :=
  match s with
  | EmptyString => EmptyString
  | String c s' => if ascii_is_space c then ascii_lstrip s' else s
  end.

Fixpoint ascii_rstrip (s : string) : string :=
  match s with
  | EmptyString => EmptyString
  | String c s' =>
      match ascii_rstrip s' with
      | EmptyString => if ascii_is_space c then EmptyString else String c EmptyString
      | r => String c r
      end
  end.

Definition ascii_lower_char (c : Ascii.ascii) : Ascii.ascii :=
  let n := Ascii.nat_of_ascii c in
  if (65 <=? n)%nat && (n <=? 90)%nat then Ascii.ascii_of_nat (n + 32) else c.

Fixpoint ascii_lower (s : string) : string :=
  match s with
  | EmptyString => EmptyString
  | String c s' => String (ascii_lower_char c) (ascii_lower s')
  end.

Fixpoint all_digits (s : string) : bool :=
  match s with
  | EmptyString => true
  | String c s' => match digit_of c with Some _ => all_digits s' | None => false end
  end.

Definition ascii_int (s : string) : result Z :=
  match s with
  | EmptyString => Raise (Exn ValueError "invalid literal for int()")
  | String _ _ =>
      if all_digits s then Ok (read_digits 0 s)
      else Raise (Exn ValueError "invalid literal for int()")
  end.

Definition ascii_builtins : PyBuiltins :=
  {| str_strip := fun s => ascii_rstrip (ascii_lstrip s);
     str_lower := ascii_lower;
     py_int := ascii_int |}.

(** A parser that finds the given checkboxes in every modal and no chat. *)
Definition fixed_soup (checkboxes : list Checkbox) : Soup :=
  {| find_checkboxes := fun _ => Ok checkboxes;
     find_chat_node := fun _ _ => None |}.

(** Renderers that leave the template as it is. *)
Definition plain_tools : CardinalTools :=
  {| format_msg_text := fun template _ => template;
     format_order_text := fun template _ => template |}.

(** A well-formed checkbox: an input with a value and a label. *)
Definition checkbox_of (entry : string * string) : Checkbox :=
  {| cb_input_value := Ok (fst entry); cb_label_text := Ok (snd entry) |}.

(** An HTTP 200 answer with a JSON body. *)
Definition ok_response (body : pyval) : result Response :=
  Ok {| status_code := 200; json := Ok body |}.


(** A world with the given coming answers and product files. *)
Definition world_of (answers : list (result Response))
    (files : gmap string (list string)) : World :=
  {| network := answers; trace := []; products := files;
     last_messages := ∅ |}.

(** Counting in a trace. *)
Definition is_send (ev : Event) : bool :=
  match ev with EvSendMessage _ _ => true | _ => false end.

Definition is_sleep (ev : Event) : bool :=
  match ev with EvSleep _ => true | _ => false end.

Definition is_send_error_log (ev : Event) : bool :=
  match ev with EvLog ERROR (MsgProductSendError _) => true | _ => false end.

Definition count (p : Event -> bool) (t : list Event) : nat :=
  length (filter (fun ev => p ev = true) t).

(** The units in the product file at [path]. *)
Definition inventory_size (path : string) (w : World) : nat :=
  length (default [] (products w !! path)).

(** A handler that announces its entry and then returns or raises. *)
Definition probe (spec : string * bool) : Handler :=
  {| handler_name := fst spec;
     handler_call := fun args =>
       emit (EvHandler (fst spec) args) ;;
       if snd spec then raise (Exn Exception "") else ret tt |}.

(** What a dispatch to the probe leaves on the trace. *)
Definition probe_events (args : HandlerArgs) (spec : string * bool)
    : list Event :=
  EvHandler (fst spec) args ::
  (if snd spec
   then [EvLog ERROR (MsgHandlerError (fst spec));
         EvLog DEBUG (MsgTraceback (Exn Exception ""))]
   else []).

(** The entries of the modal the submission keeps. *)
Definition kept_entries (exclude : option (list string))
    (entries : list (string * string)) : list (string * string) :=
  filter (fun entry => not_excluded exclude (fst entry) = true) entries.

(** A POST that raises, or whose body does not decode. *)
Definition post_fails (answer : result Response) : bool :=
  match answer with
  | Raise _ => true
  | Ok r => match json r with Raise _ => true | Ok _ => false end
  end.

(** The durations of the sleeps of a trace, in order. *)
Definition sleeps (t : list Event) : list Z :=
  omap (fun ev => match ev with EvSleep s => Some s | _ => None end) t.

(** The handler entries of a trace, in order. *)
Definition handler_entries (t : list Event) : list (string * HandlerArgs) :=
  omap (fun ev => match ev with
                  | EvHandler name args => Some (name, args)
                  | _ => None
                  end) t.

(** What one call of [send_message] adds to the trace. *)
Definition send_events {builtins : PyBuiltins} (node : option Z)
    (text : string) : list Event :=
  EvSendMessage node text ::
  (if String.eqb (str_strip text) "" then []
   else [EvPost RUNNER (ChatMessage node text)]).

(** What a command whose lookup raises leaves on the trace: per attempt
    the error, the stack trace, the announcement and the sleep. *)
Definition failed_response_attempt (msg : MessageEvent) (e : exn)
    : list Event :=
  [EvLog ERROR (MsgResponseUnexpectedError (sender_username msg));
   EvLog DEBUG (MsgTraceback e);
   EvLog INFO MsgNextAttempt;
   EvSleep 1].

(** ** Sample data *)

Definition cooldown_45 : gmap string pyval :=
  <["error" := PBool true]> (<["msg" := PStr "Подождите 45 секунд"]> ∅).

Definition null_error : gmap string pyval := <["error" := PNone]> ∅.

Definition category_0 : Category :=
  {| category_id := 7; category_game_id := Some 3;
     category_title := "Gold"; category_type := LOT |}.

Definition stock_cardinal : Cardinal :=
  {| main_config :=
       {[ "FunPay" := <["autoDelivery" := "1"]> {[ "AutoResponse" := "1" ]} ]};
     auto_response_config := {[ "help" := {[ "response" := "Ask the seller" ]} ]};
     auto_delivery_config :=
       [("Gold", <["productsFilePath" := "gold.json"]>
                   {[ "response" := "Thanks, $product delivered!" ]})];
     account := {| account_id := 1; account_username := "seller";
                   chats_html := None |};
     delivery_event_handlers := [] |}.

Definition stock_order : Order :=
  {| order_id := "ORD-1"; order_title := "100 Gold"; order_price := Qmake 15 1;
     order_buyer_name := "buyer"; order_buyer_id := 5;
     order_status := COMPLETED |}.

Definition stock_files : gmap string (list string) :=
  {[ "gold.json" := ["key-1"; "key-2"; "key-3"] ]}.

(** No request gets through. *)
Definition offline_world : World := world_of [] stock_files.

(** The coming request is answered with an empty JSON object. *)
Definition online_world : World :=
  world_of [ok_response (PDict ∅)] stock_files.

Definition shouted_help : MessageEvent :=
  {| node_id := 11; message_text := " HELP "; sender_username := "buyer";
     send_time := 0; tag := "t" |}.

(** ** The pages [account.py] parses *)

(** Sequencing of fallible evaluations. *)
Definition and_then {A B} (r : result A) (k : A -> result B) : result B :=
  match r with
  | Ok a => k a
  | Raise e => Raise e
  end.

(** An [a] of class [tc-item] of the orders page, as the loop of
    [get_account_orders] reads it: the class list, then the lookups in
    the order they are made, each of which raises when an element is
    missing or a text does not convert. *)
Record OrderDiv := {
  div_class : list string;
  div_order_id : result string;
  div_title : result string;
  div_price : result Q;
  div_buyer_name : result string;
  div_buyer_id : result Z
}.

(** What [requests.get(Links.ORDERS)] and the parser give: the status
    code, whether the [user-link-name] element is found, the order
    elements. *)
Record OrdersPage := {
  orders_status_code : Z;
  orders_user_found : bool;
  orders_divs : list OrderDiv
}.

(** The status an order element gets, or [None] where the loop
    [continue]s. *)
Definition order_div_status (include_outstanding include_completed
    include_refund : bool) (classes : list string) : option OrderStatuses :=
  if bool_decide ("warning" ∈ classes) then
    if include_refund then Some REFUND else None
  else if bool_decide ("info" ∈ classes) then
    if include_outstanding then Some OUTSTANDING else None
  else
    if include_completed then Some COMPLETED else None.

(** The body of the loop once the id passed the exclusion test. *)
Definition order_of_div (div : OrderDiv) (status : OrderStatuses)
    (order_id : string) : result Order :=
  and_then (div_title div) (fun title =>
  and_then (div_price div) (fun price =>
  and_then (div_buyer_name div) (fun buyer_name =>
  and_then (div_buyer_id div) (fun buyer_id =>
  Ok {| order_id := order_id; order_title := title; order_price := price;
        order_buyer_name := buyer_name; order_buyer_id := buyer_id;
        order_status := status |})))).

(** The loop over the order elements. *)
Fixpoint parse_order_divs (include_outstanding include_completed
    include_refund : bool) (exclude : list string) (divs : list OrderDiv)
    : result (list Order) :=
  match divs with
  | [] => Ok []
  | div :: rest =>
      let continue :=
        parse_order_divs include_outstanding include_completed
          include_refund exclude rest in
      match order_div_status include_outstanding include_completed
              include_refund (div_class div) with
      | None => continue
      | Some status =>
          and_then (div_order_id div) (fun order_id =>
          if bool_decide (order_id ∈ exclude) then continue
          else
            and_then (order_of_div div status order_id) (fun order_object =>
            and_then continue (fun parsed_orders =>
            Ok (order_object :: parsed_orders))))
      end
  end.

(** [Account.get_account_orders], as a function of what the request
    gives. *)
Definition get_account_orders (fetched : result OrdersPage)
    (include_outstanding include_completed include_refund : bool)
    (exclude : option (list string)) : result (list Order) :=
  let exclude := match exclude with
                 | Some (id :: ids) => id :: ids
                 | _ => []
                 end in
  and_then fetched (fun page =>
  if negb (orders_status_code page =? 200) then Raise (Exn Exception "")
  else if negb (orders_user_found page) then Raise (Exn Exception "")
  else parse_order_divs include_outstanding include_completed include_refund
         exclude (orders_divs page)).

(** The fields of the lot form, as the three loops of [get_lot_info]
    read them: [field["name"]] raises when the attribute is missing,
    [field.get("value")] may be [None], the selected option of a
    [select] may be missing. *)
Record InputField := {
  input_name : result string;
  input_value : option string
}.

Record TextField := {
  textarea_name : result string;
  textarea_text : string
}.

Record SelectField := {
  select_name : result string;
  select_value : result string
}.

Record LotForm := {
  form_inputs : list InputField;
  form_textareas : list TextField;
  form_selects : list SelectField
}.

Fixpoint input_entries (fields : list InputField)
    : result (list (string * string)) :=
  match fields with
  | [] => Ok []
  | field :: rest =>
      and_then (input_name field) (fun name =>
      and_then (input_entries rest) (fun entries =>
      Ok ((name, default "" (input_value field)) :: entries)))
  end.

Fixpoint textarea_entries (fields : list TextField)
    : result (list (string * string)) :=
  match fields with
  | [] => Ok []
  | field :: rest =>
      and_then (textarea_name field) (fun name =>
      and_then (textarea_entries rest) (fun entries =>
      Ok ((name, textarea_text field) :: entries)))
  end.

Fixpoint select_entries (fields : list SelectField)
    : result (list (string * string)) :=
  match fields with
  | [] => Ok []
  | field :: rest =>
      and_then (select_name field) (fun name =>
      and_then (select_value field) (fun value =>
      and_then (select_entries rest) (fun entries =>
      Ok ((name, value) :: entries))))
  end.

(** [Account.get_lot_info], as a function of the parsed form: the
    name/value pairs of the inputs, then of the text areas, then of the
    selects. *)
Definition get_lot_info (form : LotForm) : result (list (string * string)) :=
  and_then (input_entries (form_inputs form)) (fun inputs =>
  and_then (textarea_entries (form_textareas form)) (fun texts =>
  and_then (select_entries (form_selects form)) (fun selects =>
  Ok (inputs ++ texts ++ selects)))).

(** One turn of the loop of [change_lot_state] over the fields. *)
Definition payload_step (state : bool) (payload : gmap string string)
    (field : string * string) : gmap string string :=
  if String.eqb (fst field) "active" then
    if state then <["active" := "on"]> payload else payload
  else <[fst field := snd field]> payload.

(** The form data [Account.change_lot_state] posts for the fields
    [get_lot_info] returned. *)
Definition change_lot_state_payload (lot_info : list (string * string))
    (state : bool) : gmap string string :=
  <["location" := "trade"]> (fold_left (payload_step state) lot_info ∅).

(** ** Vocabulary of the further statements *)

(** The form data of the first raise request. *)
Definition first_request (category : Category) : Payload :=
  RaiseRequest (category_game_id category) (category_id category) None.

(** The message [send_response] stores as the last one of the chat. *)
Definition response_message (msg : MessageEvent) (response_text : string)
    : MessageEvent :=
  {| node_id := node_id msg; message_text := response_text;
     sender_username := sender_username msg;
     send_time := send_time msg; tag := tag msg |}.

(** The world with another last message of a chat. *)
Definition remember (node : Z) (message : MessageEvent) (w : World) : World :=
  {| network := network w; trace := trace w; products := products w;
     last_messages := <[node := message]> (last_messages w) |}.

(** The world once a chat message went out. *)
Definition sent (node : option Z) (text : string) (w : World) : World :=
  posted RUNNER (ChatMessage node text) (extend [EvSendMessage node text] w).

(** What a blank text leaves on the trace at each attempt to send it. *)
Definition blank_send_attempt (node : option Z) (text order : string)
    : list Event :=
  [EvSendMessage node text;
   EvLog ERROR (MsgProductSendError order);
   EvLog DEBUG (MsgTraceback (Exn Exception ""));
   EvLog INFO MsgNextAttempt;
   EvSleep 1].

(** The cardinal with another delivery configuration. *)
Definition with_delivery_config (cardinal : Cardinal)
    (config : list (string * gmap string string)) : Cardinal :=
  {| main_config := main_config cardinal;
     auto_response_config := auto_response_config cardinal;
     auto_delivery_config := config;
     account := account cardinal;
     delivery_event_handlers := delivery_event_handlers cardinal |}.

(** The status is one the flags ask for. *)
Definition status_wanted (include_outstanding include_completed
    include_refund : bool) (status : OrderStatuses) : bool :=
  match status with
  | OUTSTANDING => include_outstanding
  | COMPLETED => include_completed
  | REFUND => include_refund
  end.

(** A form whose fields all have a name and whose selects all have a
    selected option. *)
Definition form_of (inputs : list (string * option string))
    (textareas selects : list (string * string)) : LotForm :=
  {| form_inputs :=
       map (fun f => {| input_name := Ok (fst f); input_value := snd f |})
           inputs;
     form_textareas :=
       map (fun f => {| textarea_name := Ok (fst f);
                        textarea_text := snd f |}) textareas;
     form_selects :=
       map (fun f => {| select_name := Ok (fst f);
                        select_value := Ok (snd f) |}) selects |}.

(** The status the loop of [get_account_orders] gives to an element with
    these classes: refund for [warning], else outstanding for [info],
    else completed. *)
Definition class_status (classes : list string) : OrderStatuses :=
  if bool_decide ("warning" ∈ classes) then REFUND
  else if bool_decide ("info" ∈ classes) then OUTSTANDING
  else COMPLETED.

(** The order is the one the loop builds from the element. *)
Definition order_read_from (div : OrderDiv) (order : Order) : Prop :=
  div_order_id div = Ok (order_id order)
  /\ div_title div = Ok (order_title order)
  /\ div_price div = Ok (order_price order)
  /\ div_buyer_name div = Ok (order_buyer_name order)
  /\ div_buyer_id div = Ok (order_buyer_id order)
  /\ order_status order = class_status (div_class div).

(** ** Further sample data *)


Definition errored_check : gmap string pyval :=
  <["error" := PBool true]> {[ "msg" := PStr "Forbidden" ]}.

Definition modal_check : gmap string pyval := {[ "modal" := PStr "<div>" ]}.

Definition modal_entries : list (string * string) :=
  [("10", "Gold"); ("11", "Silver"); ("12", "Keys")].

Definition broken_label : Checkbox :=
  {| cb_input_value := Ok "11";
     cb_label_text := Raise (Exn AttributeError "no label") |}.

Definition broken_input : Checkbox :=
  {| cb_input_value := Raise (Exn TypeError "no input");
     cb_label_text := Ok "Gold" |}.

Definition plain_help : MessageEvent :=
  {| node_id := 11; message_text := "help"; sender_username := "buyer";
     send_time := 0; tag := "t" |}.

Definition accepted_answer : gmap string pyval :=
  {[ "response" := PDict {[ "ok" := PBool true ]} ]}.

Definition template_rule : string * gmap string string :=
  ("Gold", {[ "response" := "Thanks, $product delivered!" ]}).

Definition stock_rule : string * gmap string string :=
  ("Gold", <["productsFilePath" := "gold.json"]>
             {[ "response" := "Thanks, $product delivered!" ]}).

Definition sword_order : Order :=
  {| order_id := "ORD-2"; order_title := "Iron sword"; order_price := Qmake 3 1;
     order_buyer_name := "buyer"; order_buyer_id := 5;
     order_status := COMPLETED |}.

Definition order_div_of (classes : list string) (id : string) : OrderDiv :=
  {| div_class := classes; div_order_id := Ok id; div_title := Ok "100 Gold";
     div_price := Ok (Qmake 15 1); div_buyer_name := Ok "buyer";
     div_buyer_id := Ok 5 |}.

Definition orders_page : OrdersPage :=
  {| orders_status_code := 200; orders_user_found := true;
     orders_divs := [order_div_of ["tc-item"; "info"] "A1";
                     order_div_of ["tc-item"; "warning"] "A2";
                     order_div_of ["tc-item"] "A3";
                     order_div_of ["tc-item"; "info"] "A4"] |}.

(** * Properties *)

(** ** Running computations *)

Lemma run_bind {A B} (m : M A) (k : A -> M B) w :
  bind m k w = match m w with
               | (Ok a, w') => k a w'
               | (Raise e, w') => (Raise e, w')
               end.
Proof. reflexivity. Qed.

Lemma str_in_nonempty sub s :
  sub <> EmptyString -> str_in sub s = true -> s <> EmptyString.
Proof. intros Hsub Hin ->. destruct sub; [congruence | discriminate]. Qed.

(** ** The category raise *)

Section RaiseProperties.
Context {soup : Soup}.

Lemma request_lots_raise_ok category w body rest :
  network w = ok_response body :: rest ->
  request_lots_raise category w
  = (Ok body, posted RAISE (RaiseRequest (category_game_id category)
                              (category_id category) None) w).
Proof.
  intros Hnet. unfold request_lots_raise, requests_post, bind.
  rewrite Hnet. reflexivity.
Qed.


Lemma raise_cooldown (other : FunPayOther) category exclude w check rest
    msg seconds :
  network w = ok_response (PDict check) :: rest ->
  truthy (dict_get check "error") = true ->
  dict_get check "msg" = PStr msg ->
  str_in "Подождите" msg = true ->
  get_wait_time_from_raise_response (PStr msg) = Ok seconds ->
  fst (raise_game_categories category exclude w)
  = Ok (Some {| complete := false; wait := seconds;
                raised_category_names := []; response := PDict check |}).
Proof.
  intros Hnet Herr Hmsg Hin Hparse.
  unfold raise_game_categories.
  rewrite run_bind, (request_lots_raise_ok _ _ _ _ Hnet).
  cbn [bind lift ret py_get].
  rewrite Herr, Hmsg. cbn [truthy andb py_contains].
  destruct msg as [|c msg']; [discriminate Hin |].
  cbn [String.eqb negb]. rewrite Hin, Hparse. reflexivity.
Qed.

(** C2.  A raise answer with a true error flag and a message that
    contains the cooldown notice gives the outcome complete = false,
    wait = the seconds the parser reads from the message, no raised
    names, whatever the parser is; with the parser of the spec, the
    answer error = true, msg = "Подождите 45 секунд" gives wait = 45. *)
Theorem raise_cooldown_rejected :
  (forall (other : FunPayOther) category exclude w check rest msg seconds,
      network w = ok_response (PDict check) :: rest ->
      truthy (dict_get check "error") = true ->
      dict_get check "msg" = PStr msg ->
      str_in "Подождите" msg = true ->
      get_wait_time_from_raise_response (PStr msg) = Ok seconds ->
      fst (raise_game_categories category exclude w)
      = Ok (Some {| complete := false; wait := seconds;
                    raised_category_names := [];
                    response := PDict check |}))
  /\ (forall category exclude w rest,
      network w = ok_response (PDict cooldown_45) :: rest ->
      fst (raise_game_categories (other := spec_other) category exclude w)
      = Ok (Some {| complete := false; wait := 45;
                    raised_category_names := [];
                    response := PDict cooldown_45 |})).
Proof.
  split.
  - intros other. apply raise_cooldown.
  - intros category exclude w rest Hnet.
    apply (raise_cooldown spec_other category exclude w cooldown_45 rest
             "Подождите 45 секунд"); auto.
Qed.

(** C6, as amended.  A raise answer whose error entry is present, is not
    None and is falsy gives the outcome complete = true, wait = 3600,
    raised names = the title of the category. *)
Theorem raise_single_category_auto_raised (other : FunPayOther)
    category exclude w check rest error :
  network w = ok_response (PDict check) :: rest ->
  check !! "error" = Some error ->
  error <> PNone ->
  truthy error = false ->
  fst (raise_game_categories category exclude w)
  = Ok (Some {| complete := true; wait := 3600;
                raised_category_names := [category_title category];
                response := PDict check |}).
Proof.
  intros Hnet Herr Hnone Hfalsy.
  unfold raise_game_categories.
  rewrite run_bind, (request_lots_raise_ok _ _ _ _ Hnet).
  cbn [bind lift ret py_get].
  assert (dict_get check "error" = error) as ->
    by (unfold dict_get; rewrite Herr; reflexivity).
  rewrite Hfalsy. cbn [andb negb].
  destruct error; try reflexivity. congruence.
Qed.

(** C9.  A raise answer with neither an error entry nor a modal entry
    matches no branch: the function returns None. *)
Theorem raise_falls_through (other : FunPayOther) category exclude w check
    rest :
  network w = ok_response (PDict check) :: rest ->
  check !! "error" = None ->
  check !! "modal" = None ->
  fst (raise_game_categories category exclude w) = Ok None.
Proof.
  intros Hnet Herr Hmodal.
  unfold raise_game_categories.
  rewrite run_bind, (request_lots_raise_ok _ _ _ _ Hnet).
  cbn [bind lift ret py_get]. unfold dict_get. rewrite Herr, Hmodal.
  reflexivity.
Qed.


Lemma bind_lift_ok {A B} (a : A) (k : A -> M B) w :
  bind (lift (Ok a)) k w = k a w.
Proof. reflexivity. Qed.

Lemma collect_checkboxes_entries exclude entries :
  collect_checkboxes exclude (map checkbox_of entries)
  = Ok ((kept_entries exclude entries).*1, (kept_entries exclude entries).*2).
Proof.
  unfold kept_entries.
  induction entries as [|[i n] entries IH]; [reflexivity|].
  cbn [map collect_checkboxes checkbox_of cb_input_value cb_label_text fst snd].
  rewrite filter_cons. cbn [fst].
  destruct (not_excluded exclude i) eqn:Hk.
  - rewrite IH, decide_True by reflexivity. reflexivity.
  - rewrite IH, decide_False by discriminate. reflexivity.
Qed.

Lemma kept_ids_difference exclude entries :
  (list_to_set (kept_entries exclude entries).*1 : gset string)
  = list_to_set entries.*1 ∖ list_to_set (default [] exclude).
Proof.
  apply set_eq. intros x.
  rewrite elem_of_difference, !elem_of_list_to_set, !list_elem_of_fmap.
  unfold kept_entries. setoid_rewrite list_elem_of_filter.
  unfold not_excluded. destruct exclude as [ex|]; cbn [default].
  - split.
    + intros ([i n] & -> & Hk & Hin). cbn [fst] in *.
      apply negb_true_iff, bool_decide_eq_false in Hk. split; eauto.
      exists (i, n); split; done.
    + intros [([i n] & -> & Hin) Hk]. exists (i, n). cbn [fst] in *.
      split; [done|]. split; [|done].
      apply negb_true_iff, bool_decide_eq_false. done.
  - split.
    + intros (e & -> & _ & Hin). split; [eauto|]. apply not_elem_of_nil.
    + intros [(e & -> & Hin) _]. eauto.
Qed.

(** C3.  When the answer presents a modal whose checkboxes are the
    entries (id, name), the second raise request carries the ids of the
    entries that are not in the exclusion list, as a set the ids of the
    modal minus the exclusion set, and when the answer to it has no
    error the raised names are the names of the submitted entries. *)
Theorem raise_modal_submission (other : FunPayOther) category exclude w
    check rest entries :
  network w = ok_response (PDict check) :: rest ->
  dict_get check "error" = PNone ->
  truthy (dict_get check "modal") = true ->
  find_checkboxes (dict_get check "modal") = Ok (map checkbox_of entries) ->
  let kept := kept_entries exclude entries in
  let request ids :=
    EvPost RAISE (RaiseRequest (category_game_id category)
                    (category_id category) ids) in
  trace (snd (raise_game_categories category exclude w))
  = trace w ++ [request None; request (Some kept.*1)]
  /\ (list_to_set kept.*1 : gset string)
     = list_to_set entries.*1 ∖ list_to_set (default [] exclude)
  /\ (forall status submit rest',
        rest = Ok {| status_code := status; json := Ok (PDict submit) |}
               :: rest' ->
        truthy (dict_get submit "error") = false ->
        fst (raise_game_categories category exclude w)
        = Ok (Some {| complete := true; wait := 3600;
                      raised_category_names := kept.*2;
                      response := PDict submit |})).
Proof.
  intros Hnet Herr Hmodal Hfind kept request.
  assert (Hrun : raise_game_categories category exclude w
    = (http <- requests_post RAISE
         (RaiseRequest (category_game_id category) (category_id category)
                       (Some kept.*1)) ;;
       response <- lift (json http) ;;
       submit_error <- lift (py_get response "error") ;;
       if negb (truthy submit_error) then
         ret (Some {| complete := true; wait := 3600;
                      raised_category_names := kept.*2;
                      response := response |})
       else
         ret (Some {| complete := false; wait := 10;
                      raised_category_names := [];
                      response := response |}))
        (posted RAISE (RaiseRequest (category_game_id category)
                         (category_id category) None) w)).
  { unfold raise_game_categories.
    rewrite run_bind, (request_lots_raise_ok _ _ _ _ Hnet).
    cbn [bind lift ret py_get]. rewrite Herr.
    change (truthy PNone) with false. change (is_None PNone) with true.
    cbn [andb negb bind ret].
    rewrite bind_lift_ok, Hmodal, Hfind, bind_lift_ok,
      collect_checkboxes_entries, bind_lift_ok.
    reflexivity. }
  rewrite Hrun. split; [|split].
  - unfold bind, requests_post, lift, ret.
    repeat (case_match; simplify_eq/=); rewrite <- app_assoc; reflexivity.
  - apply kept_ids_difference.
  - intros status submit rest' -> Hok.
    unfold bind, requests_post, lift, ret. cbn [posted network tail].
    rewrite Hnet. cbn [tail json py_get]. rewrite Hok. reflexivity.
Qed.
End RaiseProperties.

(** ** Traces and worlds *)

Lemma extend_extend a b w : extend b (extend a w) = extend (a ++ b) w.
Proof. unfold extend. cbn. by rewrite app_assoc. Qed.

Lemma extend_nil w : extend [] w = w.
Proof. destruct w. unfold extend. cbn. by rewrite app_nil_r. Qed.

Lemma bind_emit {B} ev (k : unit -> M B) w :
  bind (emit ev) k w = k tt (extend [ev] w).
Proof. reflexivity. Qed.

Lemma count_app p a b : count p (a ++ b) = (count p a + count p b)%nat.
Proof. unfold count. by rewrite filter_app, length_app. Qed.

Lemma sleeps_app a b : sleeps (a ++ b) = sleeps a ++ sleeps b.
Proof. apply omap_app. Qed.

Lemma handler_entries_app a b :
  handler_entries (a ++ b) = handler_entries a ++ handler_entries b.
Proof. apply omap_app. Qed.

(** ** The dispatch *)

Lemma call_isolated_ok handler args w :
  fst (call_isolated handler args w) = Ok tt.
Proof.
  unfold call_isolated, bind, try_, log, emit, ret.
  destruct (handler_call handler args w) as [[[]|e] w']; reflexivity.
Qed.

Lemma run_handlers_fold handlers args w :
  run_handlers handlers args w
  = (Ok tt, fold_left (fun w' handler => snd (call_isolated handler args w'))
                      handlers w).
Proof.
  revert w. induction handlers as [|h hs IH]; intros w; [reflexivity|].
  cbn [run_handlers fold_left]. rewrite run_bind.
  pose proof (call_isolated_ok h args w) as Hok.
  destruct (call_isolated h args w) as [r w']. cbn in Hok. subst r.
  apply IH.
Qed.

Lemma register_all_at kind handlers registry :
  register_all kind handlers registry kind = registry kind ++ handlers.
Proof.
  revert registry. induction handlers as [|h hs IH]; intros registry.
  - cbn. by rewrite app_nil_r.
  - cbn [register_all fold_left].
    fold (register_all kind hs (register kind h registry)).
    rewrite IH. unfold register. rewrite decide_True by done.
    by rewrite <- app_assoc.
Qed.

Lemma call_probe args spec w :
  call_isolated (probe spec) args w = (Ok tt, extend (probe_events args spec) w).
Proof.
  destruct spec as [name [|]];
    unfold call_isolated, probe, probe_events, bind, try_, log, emit, ret, raise;
    cbn.
  - by rewrite !extend_extend.
  - reflexivity.
Qed.

Lemma run_probes args specs w :
  run_handlers (map probe specs) args w
  = (Ok tt, extend (concat (map (probe_events args) specs)) w).
Proof.
  revert w. induction specs as [|spec specs IH]; intros w.
  - cbn. by rewrite extend_nil.
  - cbn [map run_handlers concat]. rewrite run_bind, call_probe, IH.
    by rewrite extend_extend.
Qed.

Lemma probe_entries args specs :
  handler_entries (concat (map (probe_events args) specs))
  = map (fun spec => (fst spec, args)) specs.
Proof.
  induction specs as [|[name fails] specs IH]; [reflexivity|].
  cbn [map concat]. rewrite handler_entries_app, IH.
  destruct fails; reflexivity.
Qed.

(** C1.  For every event kind and every sequence of handlers registered
    for it, the registry holds them in registration order; a dispatch
    never raises and leaves the world that running the handlers one after
    the other, each once, on the same arguments and with its exception
    caught and logged, leaves; and when the handlers announce themselves,
    raising or not, the entries on the trace are one per handler, in
    registration order, each with the arguments of the dispatch. *)
Theorem dispatch_runs_every_handler kind handlers args w :
  let registry := register_all kind handlers empty_registry in
  registry kind = handlers
  /\ dispatch registry kind args w
     = (Ok tt, fold_left (fun w' handler => snd (call_isolated handler args w'))
                         handlers w)
  /\ (forall specs,
        let w' := snd (dispatch (register_all kind (map probe specs)
                                   empty_registry) kind args w) in
        w' = extend (concat (map (probe_events args) specs)) w
        /\ handler_entries (trace w')
           = handler_entries (trace w)
             ++ map (fun spec => (fst spec, args)) specs).
Proof.
  cbn zeta. unfold dispatch. rewrite !register_all_at. cbn [empty_registry app].
  split; [done|]. split; [apply run_handlers_fold|].
  intros specs. rewrite register_all_at. cbn [empty_registry app].
  rewrite run_probes. cbn [snd extend trace]. split; [done|].
  by rewrite handler_entries_app, probe_entries.
Qed.

Example dispatch_new_message_handlers :
  handler_entries
    (trace (snd (dispatch
                   (register_all NEW_MESSAGE_EVENT
                      (map (fun name => probe (name, false))
                           REGISTER_TO_NEW_MESSAGE_EVENT)
                      empty_registry)
                   NEW_MESSAGE_EVENT (MessageArgs shouted_help) offline_world)))
  = [("log_msg_handler", MessageArgs shouted_help);
     ("send_response_handler", MessageArgs shouted_help);
     ("send_command_notification_handler", MessageArgs shouted_help)].
Proof. reflexivity. Qed.

(** ** The delivery *)

Lemma forallb_take_S {A} (p : A -> bool) n l :
  forallb p (take (S n) l) = true ->
  forallb p (take 1 l) = true
  /\ forallb p (take n l) = true
  /\ forallb p (take n (tail l)) = true.
Proof.
  revert n. induction l as [|a l IH]; intros n H; [by destruct n|].
  cbn in H. apply andb_true_iff in H as [Ha Hl]. cbn [tail].
  split; [cbn; by rewrite Ha|]. split; [|done].
  destruct n as [|n]; [done|]. cbn. rewrite Ha. cbn.
  by destruct (IH _ Hl) as (_ & ? & _).
Qed.

Section DeliveryProperties.
Context {builtins : PyBuiltins} {soup : Soup} {tools : CardinalTools}.

Lemma send_message_world node text w :
  let w' := snd (send_message node text w) in
  trace w' = trace w ++ send_events node text
  /\ products w' = products w
  /\ last_messages w' = last_messages w.
Proof.
  unfold send_message, send_events, bind, emit, raise, requests_post, lift.
  cbn [fst snd].
  destruct (String.eqb (str_strip text) ""); cbn.
  - done.
  - destruct (network w) as [|[r|e] rest]; cbn;
      rewrite <- ?app_assoc; done.
Qed.

Lemma send_events_counts node text :
  count is_send (send_events node text) = 1%nat
  /\ count is_send_error_log (send_events node text) = 0%nat
  /\ sleeps (send_events node text) = [].
Proof.
  unfold send_events. destruct (String.eqb (str_strip text) ""); done.
Qed.

Lemma send_message_fails node text w :
  forallb post_fails (take 1 (network w)) = true ->
  exists e, fst (send_message node text w) = Raise e.
Proof.
  intros Hfail.
  unfold send_message, bind, emit, raise, requests_post, lift. cbn [fst snd].
  destruct (String.eqb (str_strip text) ""); [eauto|].
  cbn [extend network]. destruct (network w) as [|[r|e] rest]; cbn; eauto.
  cbn in Hfail. destruct (json r); [discriminate | eauto].
Qed.

Lemma send_message_network node text w :
  network (snd (send_message node text w)) = network w
  \/ network (snd (send_message node text w)) = tail (network w).
Proof.
  unfold send_message, bind, emit, raise, requests_post, lift. cbn [fst snd].
  destruct (String.eqb (str_strip text) ""); [by left|].
  right. cbn [extend network].
  destruct (network w) as [|[r|e] rest] eqn:Hn; cbn; rewrite ?Hn;
    try destruct (json r); reflexivity.
Qed.

(** The attempts of the sending loop, counted on the trace. *)
Lemma send_product_attempts_spec attempts node text order w :
  exists result new,
    fst (send_product_attempts attempts node text order w) = Ok result
    /\ let w' := snd (send_product_attempts attempts node text order w) in
       let failures := count is_send_error_log new in
       trace w' = trace w ++ new
       /\ products w' = products w
       /\ count is_send new = (failures + if result then 1 else 0)%nat
       /\ (count is_send new <= attempts)%nat
       /\ (result = false -> count is_send new = attempts)
       /\ sleeps new = replicate failures 1.
Proof.
  revert w. induction attempts as [|n IH]; intros w.
  - exists false, []. cbn. rewrite app_nil_r. done.
  - cbn [send_product_attempts]. rewrite run_bind. unfold try_.
    pose proof (send_message_world node text w) as (Ht & Hp & _).
    pose proof (send_events_counts node text) as (Hc1 & Hc2 & Hc3).
    destruct (send_message node text w) as [[v|e] w1]; cbn [fst snd] in *.
    + exists true, (send_events node text). cbn [fst snd ret].
      rewrite Hc1, Hc2, Hc3. repeat split; try done. lia.
    + unfold log, sleep. rewrite !bind_emit, !extend_extend. cbn [app].
      set (logs := [EvLog ERROR (MsgProductSendError order);
                    EvLog DEBUG (MsgTraceback e); EvLog INFO MsgNextAttempt;
                    EvSleep 1]).
      destruct (IH (extend logs w1))
        as (result & new & Hres & Ht' & Hp' & Hcs & Hle & Hfalse & Hsl).
      exists result, (send_events node text ++ logs ++ new).
      split; [exact Hres|]. cbn zeta.
      rewrite Ht', Hp'. cbn [extend trace products]. rewrite Ht, Hp.
      rewrite !count_app, !sleeps_app, Hc1, Hc2, Hc3, Hsl.
      change (count is_send logs) with 0%nat.
      change (count is_send_error_log logs) with 1%nat.
      change (sleeps logs) with [1].
      repeat split.
      * by rewrite <- !app_assoc.
      * rewrite Hcs. lia.
      * lia.
      * intros Hr. rewrite (Hfalse Hr). lia.
Qed.

Lemma send_product_attempts_all_fail attempts node text order w :
  forallb post_fails (take attempts (network w)) = true ->
  fst (send_product_attempts attempts node text order w) = Ok false.
Proof.
  revert w. induction attempts as [|n IH]; intros w Hfail; [reflexivity|].
  apply forallb_take_S in Hfail as (H1 & Hn & Hn').
  cbn [send_product_attempts]. rewrite run_bind. unfold try_.
  destruct (send_message_fails node text w H1) as [e He].
  pose proof (send_message_network node text w) as Hnet.
  destruct (send_message node text w) as [r w1]. cbn [fst snd] in *. subst r.
  unfold log, sleep. rewrite !bind_emit, !extend_extend.
  apply IH. cbn [extend network]. by destruct Hnet as [-> | ->].
Qed.

Lemma get_node_id_world self username force w :
  snd (get_node_id_by_username self username force w) = w.
Proof.
  unfold get_node_id_by_username, bind, lift, ret.
  repeat case_match; reflexivity.
Qed.

Lemma deliver_product_failed order cardinal w text n w3 :
  deliver_product order cardinal w = (Ok (Some (false, text, n)), w3) ->
  exists new,
    trace w3 = trace w ++ new
    /\ count is_send new = 3%nat
    /\ count is_send_error_log new = 3%nat
    /\ sleeps new = [1; 1; 1].
Proof.
  unfold deliver_product.
  destruct (find _ _) as [[lot obj]|]; [|discriminate].
  rewrite run_bind.
  pose proof (get_node_id_world (account cardinal)
                (order_buyer_name order) false w) as Hw.
  destruct (get_node_id_by_username _ _ _ w) as [[node|e] w0]; [|discriminate].
  cbn [snd] in Hw. subst w0.
  rewrite run_bind. unfold lift at 1.
  destruct (index obj "response") as [template|e]; [|discriminate].
  destruct (obj !! "productsFilePath") as [path|].
  - rewrite run_bind. unfold get_product_from_json at 1.
    destruct (products w !! path) as [[|product units]|]; try discriminate.
    cbn [fst]. rewrite run_bind. unfold send_product_text.
    match goal with |- context [send_product_attempts 3 ?a ?b ?c ?d] =>
      destruct (send_product_attempts_spec 3 a b c d)
        as (result & new & Hres & Ht & _ & Hcs & _ & Hfalse & Hsl);
      destruct (send_product_attempts 3 a b c d) as [r w1] end.
    cbn [fst snd trace] in *. subst r.
    destruct result; cbn [negb].
    + rewrite run_bind. cbn [ret]. discriminate.
    + rewrite run_bind. unfold add_product_to_json.
      destruct (products w1 !! path); [|discriminate].
      cbn [ret]. intros [= _ _ <-]. cbn [trace].
      exists new. specialize (Hfalse eq_refl).
      assert (count is_send_error_log new = 3%nat) as Hf by lia.
      rewrite Hf in Hsl. done.
  - rewrite run_bind. unfold send_product_text.
    match goal with |- context [send_product_attempts 3 ?a ?b ?c ?d] =>
      destruct (send_product_attempts_spec 3 a b c d)
        as (result & new & Hres & Ht & _ & Hcs & _ & Hfalse & Hsl);
      destruct (send_product_attempts 3 a b c d) as [r w1] end.
    cbn [fst snd trace] in *. subst r. cbn [ret].
    intros [= -> _ <-]. exists new. specialize (Hfalse eq_refl).
    assert (count is_send_error_log new = 3%nat) as Hf by lia.
    rewrite Hf in Hsl. subst. done.
Qed.

Lemma delivery_handler_reports_failure order cardinal w enabled text n w3 :
  config_int cardinal "FunPay" "autoDelivery" = Ok enabled ->
  enabled <> 0 ->
  deliver_product order cardinal w = (Ok (Some (false, text, n)), w3) ->
  delivery_product_handler order cardinal w
  = run_handlers (delivery_event_handlers cardinal)
      (DeliveryArgs order "Превышено кол-во попыток." (Some true))
      (extend [EvLog ERROR (MsgDeliveryAttemptsExceeded (order_id order))] w3).
Proof.
  intros Hcfg Hon Hdel.
  unfold delivery_product_handler, config_flag. rewrite Hcfg, bind_lift_ok.
  destruct (enabled =? 0) eqn:Hz; [apply Z.eqb_eq in Hz; contradiction|].
  unfold try_except_Exception. rewrite run_bind, Hdel.
  unfold log. rewrite bind_emit, run_handlers_fold. reflexivity.
Qed.

(** C4.  When the rule matched by the order has a product file and the
    delivery ends with a failed send, the unit taken out is back in the
    file and the file holds as many units as before. *)
Theorem delivery_failure_restores_inventory order cardinal w lot delivery_obj
    path text n w' :
  find (fun lot => str_in (fst lot) (order_title order))
       (auto_delivery_config cardinal) = Some (lot, delivery_obj) ->
  delivery_obj !! "productsFilePath" = Some path ->
  deliver_product order cardinal w = (Ok (Some (false, text, n)), w') ->
  inventory_size path w' = inventory_size path w
  /\ exists product units,
       products w !! path = Some (product :: units)
       /\ products w' !! path = Some (units ++ [product]).
Proof.
  intros Hfind Hpath. unfold deliver_product. rewrite Hfind.
  rewrite run_bind.
  pose proof (get_node_id_world (account cardinal)
                (order_buyer_name order) false w) as Hw.
  destruct (get_node_id_by_username _ _ _ w) as [[node|e] w0]; [|discriminate].
  cbn [snd] in Hw. subst w0.
  rewrite run_bind. unfold lift at 1.
  destruct (index delivery_obj "response") as [template|e]; [|discriminate].
  rewrite Hpath, run_bind. unfold get_product_from_json at 1.
  destruct (products w !! path) as [[|product units]|] eqn:Hstock;
    try discriminate.
  cbn [fst]. rewrite run_bind. unfold send_product_text.
  match goal with |- context [send_product_attempts 3 ?a ?b ?c ?d] =>
    destruct (send_product_attempts_spec 3 a b c d)
      as (result & new & Hres & _ & Hp & _);
    destruct (send_product_attempts 3 a b c d) as [r w1] end.
  cbn [fst snd products] in *. subst r.
  destruct result; cbn [negb]; rewrite run_bind; [discriminate|].
  unfold add_product_to_json. rewrite Hp, lookup_insert_eq.
  cbn [ret]. intros [= _ _ <-].
  unfold inventory_size. cbn [products]. rewrite Hstock, lookup_insert_eq.
  split; [|eauto].
  cbn. rewrite length_app. cbn. lia.
Qed.

(** C5.  The product is sent in at most 3 attempts; every attempt that
    raises is logged and followed by a sleep of one second; three
    failing requests in a row make the send fail; and a delivery that
    ends with a failed send has made exactly 3 attempts, after which the
    handler reports the failure to the delivery handlers. *)
Theorem delivery_send_retries :
  (forall node text order cardinal w,
      exists result new,
        fst (send_product_text node text order cardinal w) = Ok result
        /\ trace (snd (send_product_text node text order cardinal w))
           = trace w ++ new
        /\ count is_send new
           = (count is_send_error_log new + if result then 1 else 0)%nat
        /\ (count is_send new <= 3)%nat
        /\ (result = false -> count is_send new = 3%nat)
        /\ sleeps new = replicate (count is_send_error_log new) 1)
  /\ (forall node text order cardinal w,
        forallb post_fails (take 3 (network w)) = true ->
        fst (send_product_text node text order cardinal w) = Ok false)
  /\ (forall order cardinal w enabled text n w3,
        config_int cardinal "FunPay" "autoDelivery" = Ok enabled ->
        enabled <> 0 ->
        deliver_product order cardinal w = (Ok (Some (false, text, n)), w3) ->
        (exists new,
            trace w3 = trace w ++ new
            /\ count is_send new = 3%nat
            /\ count is_send_error_log new = 3%nat
            /\ sleeps new = [1; 1; 1])
        /\ delivery_product_handler order cardinal w
           = run_handlers (delivery_event_handlers cardinal)
               (DeliveryArgs order "Превышено кол-во попыток." (Some true))
               (extend [EvLog ERROR
                          (MsgDeliveryAttemptsExceeded (order_id order))] w3)).
Proof.
  split; [|split].
  - intros node text order cardinal w. unfold send_product_text.
    destruct (send_product_attempts_spec 3 node text order w)
      as (result & new & Hres & Ht & _ & Hcs & Hle & Hfalse & Hsl).
    exists result, new. done.
  - intros node text order cardinal w. unfold send_product_text.
    apply send_product_attempts_all_fail.
  - intros order cardinal w enabled text n w3 Hcfg Hon Hdel. split.
    + by eapply deliver_product_failed.
    + by eapply delivery_handler_reports_failure.
Qed.
End DeliveryProperties.

(** ** The command response *)

Section ResponseProperties.
Context {builtins : PyBuiltins} {tools : CardinalTools}.

Lemma send_response_unknown_key msg cardinal w :
  auto_response_config cardinal !! str_strip (message_text msg) = None ->
  send_response msg cardinal w
  = (Raise (key_error (str_strip (message_text msg))), w).
Proof.
  intros Hkey. unfold send_response, index, bind, lift. rewrite Hkey.
  reflexivity.
Qed.

Lemma send_response_attempts_unknown_key attempts msg cardinal w :
  auto_response_config cardinal !! str_strip (message_text msg) = None ->
  send_response_attempts attempts msg cardinal w
  = (Ok false,
     extend (concat (replicate attempts
               (failed_response_attempt msg
                  (key_error (str_strip (message_text msg)))))) w).
Proof.
  intros Hkey. revert w. induction attempts as [|n IH]; intros w.
  - cbn. by rewrite extend_nil.
  - cbn [send_response_attempts replicate concat]. rewrite run_bind.
    unfold try_. rewrite (send_response_unknown_key _ _ _ Hkey).
    unfold log, sleep. rewrite !bind_emit, !extend_extend, IH, extend_extend.
    reflexivity.
Qed.

(** C10.  With the auto response switched on, a message whose stripped
    and lowercased text is a key of the configuration while its stripped
    text is not passes the gate of the handler; each of the 3 attempts
    raises the KeyError of that text before anything is sent, is logged
    and followed by a sleep, and the handler gives up: the trace grows
    by log records and sleeps only. *)
Theorem response_case_mismatch msg cardinal w enabled :
  config_int cardinal "FunPay" "AutoResponse" = Ok enabled ->
  enabled <> 0 ->
  is_Some (auto_response_config cardinal
             !! str_lower (str_strip (message_text msg))) ->
  auto_response_config cardinal !! str_strip (message_text msg) = None ->
  let command := str_strip (message_text msg) in
  (forall w', send_response msg cardinal w' = (Raise (key_error command), w'))
  /\ send_response_handler msg cardinal w
     = (Ok tt,
        extend
          (EvLog INFO (MsgCommandReceived command (sender_username msg)
                         (node_id msg))
           :: concat (replicate 3
                        (failed_response_attempt msg (key_error command)))
           ++ [EvLog ERROR MsgResponseAttemptsExceeded]) w).
Proof.
  intros Hcfg Hon Hlower Hkey command. split.
  - intros w'. by apply send_response_unknown_key.
  - unfold send_response_handler, config_flag. rewrite Hcfg, bind_lift_ok.
    destruct (enabled =? 0) eqn:Hz; [apply Z.eqb_eq in Hz; contradiction|].
    rewrite bool_decide_eq_true_2 by exact Hlower. cbn [negb].
    unfold log at 1. rewrite bind_emit, run_bind.
    rewrite (send_response_attempts_unknown_key _ _ _ _ Hkey).
    cbn [negb]. unfold log, emit. rewrite !extend_extend. reflexivity.
Qed.
End ResponseProperties.

(** ** The worked cases *)

Lemma raise_cooldown_rejected_45 :
  fst (raise_game_categories (soup := fixed_soup []) (other := spec_other)
         category_0 None
         (world_of [ok_response (PDict cooldown_45)] ∅))
  = Ok (Some {| complete := false; wait := 45;
                raised_category_names := [];
                response := PDict cooldown_45 |}).
Proof.
  apply (proj1 (@raise_cooldown_rejected (fixed_soup []))
           spec_other category_0 None _ cooldown_45 []
           "Подождите 45 секунд" 45); reflexivity.
Defined.

Lemma raise_modal_submission_sample :
  let entries := [("10", "Gold"); ("11", "Silver"); ("12", "Keys")] in
  let run :=
    raise_game_categories (soup := fixed_soup (map checkbox_of entries))
      (other := spec_other) category_0 (Some ["11"])
      (world_of [ok_response (PDict {[ "modal" := PStr "<div>" ]});
                 ok_response (PDict ∅)] ∅) in
  trace (snd run)
  = [EvPost RAISE (RaiseRequest (Some 3) 7 None);
     EvPost RAISE (RaiseRequest (Some 3) 7 (Some ["10"; "12"]))]
  /\ fst run = Ok (Some {| complete := true; wait := 3600;
                           raised_category_names := ["Gold"; "Keys"];
                           response := PDict ∅ |}).
Proof.
  intros entries run.
  destruct (raise_modal_submission
              (soup := fixed_soup (map checkbox_of entries)) spec_other
              category_0 (Some ["11"])
              (world_of [ok_response (PDict {[ "modal" := PStr "<div>" ]});
                         ok_response (PDict ∅)] ∅)
              {[ "modal" := PStr "<div>" ]} [ok_response (PDict ∅)] entries)
    as (Htrace & _ & Hout); try reflexivity.
  split; [exact Htrace|].
  apply (Hout 200 ∅ []); reflexivity.
Defined.

(** C6, as stated, fails: an error entry that is present and falsy, here
    None, with no modal entry, makes the function return None. *)
Lemma raise_null_error_returns_None :
  null_error !! "error" = Some PNone
  /\ truthy PNone = false
  /\ null_error !! "modal" = None
  /\ fst (raise_game_categories (soup := fixed_soup []) (other := spec_other)
            category_0 None (world_of [ok_response (PDict null_error)] ∅))
     = Ok None
  /\ fst (raise_game_categories (soup := fixed_soup []) (other := spec_other)
            category_0 None (world_of [ok_response (PDict null_error)] ∅))
     <> Ok (Some {| complete := true; wait := 3600;
                    raised_category_names := [category_title category_0];
                    response := PDict null_error |}).
Proof.
  assert (fst (raise_game_categories (soup := fixed_soup [])
                 (other := spec_other) category_0 None
                 (world_of [ok_response (PDict null_error)] ∅)) = Ok None)
    as Hrun by reflexivity.
  repeat split; try reflexivity.
  rewrite Hrun. discriminate.
Qed.

Lemma raise_single_category_auto_raised_sample :
  fst (raise_game_categories (soup := fixed_soup []) (other := spec_other)
         category_0 None
         (world_of [ok_response (PDict {[ "error" := PBool false ]})] ∅))
  = Ok (Some {| complete := true; wait := 3600;
                raised_category_names := ["Gold"];
                response := PDict {[ "error" := PBool false ]} |}).
Proof.
  apply (raise_single_category_auto_raised (soup := fixed_soup []) spec_other
           category_0 None _ {[ "error" := PBool false ]} [] (PBool false));
    [reflexivity | reflexivity | discriminate | reflexivity].
Defined.

Lemma raise_falls_through_sample :
  fst (raise_game_categories (soup := fixed_soup []) (other := spec_other)
         category_0 None (world_of [ok_response (PDict ∅)] ∅))
  = Ok None.
Proof.
  apply (raise_falls_through (soup := fixed_soup []) spec_other category_0
           None _ ∅ []); reflexivity.
Defined.



Lemma delivery_failure_restores_inventory_sample :
  inventory_size "gold.json"
    (snd (deliver_product (builtins := ascii_builtins) (soup := fixed_soup [])
            (tools := plain_tools) stock_order stock_cardinal offline_world))
  = inventory_size "gold.json" offline_world.
Proof.
  refine (proj1 (delivery_failure_restores_inventory
                   (builtins := ascii_builtins) (soup := fixed_soup [])
                   (tools := plain_tools) stock_order stock_cardinal
                   offline_world "Gold"
                   (<["productsFilePath" := "gold.json"]>
                      {[ "response" := "Thanks, $product delivered!" ]})
                   "gold.json" "Thanks, key-1 delivered!" (-1) _ _ _ _));
    vm_compute; reflexivity.
Defined.

Lemma delivery_send_retries_sample :
  fst (send_product_text (builtins := ascii_builtins) None "Thanks" "ORD-1"
         stock_cardinal offline_world) = Ok false
  /\ delivery_product_handler (builtins := ascii_builtins)
       (soup := fixed_soup []) (tools := plain_tools)
       stock_order stock_cardinal offline_world
     = run_handlers []
         (DeliveryArgs stock_order "Превышено кол-во попыток." (Some true))
         (extend [EvLog ERROR (MsgDeliveryAttemptsExceeded "ORD-1")]
            (snd (deliver_product (builtins := ascii_builtins)
                    (soup := fixed_soup []) (tools := plain_tools)
                    stock_order stock_cardinal offline_world))).
Proof.
  destruct (delivery_send_retries (builtins := ascii_builtins)
              (soup := fixed_soup []) (tools := plain_tools))
    as (_ & Hfail & Hflow).
  split.
  - apply Hfail. reflexivity.
  - apply (Hflow stock_order stock_cardinal offline_world 1
             "Thanks, key-1 delivered!" (-1)).
    + reflexivity.
    + lia.
    + vm_compute. reflexivity.
Defined.

(** C8.  A delivery from a product file of three units that is sent at
    the first attempt reports the remaining count -1 although two units
    are left in the file. *)
Theorem delivery_remaining_count_untracked :
  let run :=
    deliver_product (builtins := ascii_builtins) (soup := fixed_soup [])
      (tools := plain_tools) stock_order stock_cardinal online_world in
  fst run = Ok (Some (true, "Thanks, key-1 delivered!", -1))
  /\ inventory_size "gold.json" (snd run) = 2%nat
  /\ products (snd run) !! "gold.json" = Some ["key-2"; "key-3"].
Proof. vm_compute. repeat split; reflexivity. Qed.

Lemma response_case_mismatch_sample :
  send_response_handler (builtins := ascii_builtins) (tools := plain_tools)
    shouted_help stock_cardinal offline_world
  = (Ok tt,
     extend
       (EvLog INFO (MsgCommandReceived "HELP" "buyer" 11)
        :: concat (replicate 3
                     (failed_response_attempt shouted_help (key_error "HELP")))
        ++ [EvLog ERROR MsgResponseAttemptsExceeded]) offline_world).
Proof.
  apply (proj2 (response_case_mismatch (builtins := ascii_builtins)
                  (tools := plain_tools)
                  shouted_help stock_cardinal offline_world 1
                  eq_refl ltac:(lia) ltac:(vm_compute; eauto) eq_refl)).
Defined.

(** * Further properties *)

(** ** More of the category raise *)

Section MoreRaiseProperties.
Context {soup : Soup}.

(** X1.  A raise answer with a true error flag whose message is missing
    or empty, or is a text without the cooldown notice, gives the outcome
    complete = false, wait = 10, no raised names, after the one request. *)
Theorem raise_errored (other : FunPayOther) category exclude w check rest :
  network w = ok_response (PDict check) :: rest ->
  truthy (dict_get check "error") = true ->
  (truthy (dict_get check "msg") = false
   \/ exists text, dict_get check "msg" = PStr text
                   /\ str_in "Подождите" text = false) ->
  raise_game_categories category exclude w
  = (Ok (Some {| complete := false; wait := 10;
                 raised_category_names := []; response := PDict check |}),
     posted RAISE (first_request category) w).
Proof.
  intros Hnet Herr Hmsg.
  unfold raise_game_categories.
  rewrite run_bind, (request_lots_raise_ok _ _ _ _ Hnet).
  cbn [bind lift ret py_get]. rewrite Herr. cbn [andb].
  destruct Hmsg as [Hfalsy | (text & Htext & Hin)].
  - rewrite Hfalsy. reflexivity.
  - rewrite Htext. cbn [truthy py_contains]. rewrite Hin.
    destruct (negb (String.eqb text "")); reflexivity.
Qed.

(** X2.  When the answer to the submission of the modal carries a true
    error flag, the outcome is complete = false, wait = 10, no raised
    names, with the answer to the submission as response. *)
Theorem raise_modal_rejected (other : FunPayOther) category exclude w check
    rest entries status submit rest' :
  network w = ok_response (PDict check) :: rest ->
  dict_get check "error" = PNone ->
  truthy (dict_get check "modal") = true ->
  find_checkboxes (dict_get check "modal") = Ok (map checkbox_of entries) ->
  rest = Ok {| status_code := status; json := Ok (PDict submit) |} :: rest' ->
  truthy (dict_get submit "error") = true ->
  fst (raise_game_categories category exclude w)
  = Ok (Some {| complete := false; wait := 10;
                raised_category_names := []; response := PDict submit |}).
Proof.
  intros Hnet Herr Hmodal Hfind -> Hbad.
  unfold raise_game_categories.
  rewrite run_bind, (request_lots_raise_ok _ _ _ _ Hnet).
  cbn [bind lift ret py_get]. rewrite Herr.
  change (truthy PNone) with false. change (is_None PNone) with true.
  cbn [andb negb bind ret].
  rewrite bind_lift_ok, Hmodal, Hfind, bind_lift_ok,
    collect_checkboxes_entries, bind_lift_ok.
  unfold bind, requests_post, lift, ret. cbn [posted network tail].
  rewrite Hnet. cbn [tail json py_get]. rewrite Hbad. reflexivity.
Qed.

(** X3.  Whatever the answers are and however it ends, a raise sends the
    first request and at most one more, both raise requests of the same
    category, and touches neither the product files nor the last
    messages. *)
Theorem raise_requests_bounded (other : FunPayOther) category exclude w :
  let w' := snd (raise_game_categories category exclude w) in
  (trace w' = trace w ++ [EvPost RAISE (first_request category)]
   \/ exists ids,
       trace w' = trace w ++ [EvPost RAISE (first_request category);
                              EvPost RAISE
                                (RaiseRequest (category_game_id category)
                                   (category_id category) (Some ids))])
  /\ products w' = products w
  /\ last_messages w' = last_messages w.
Proof.
  unfold raise_game_categories, request_lots_raise, first_request.
  unfold bind, lift, ret, raise, requests_post.
  repeat (case_match; simplify_eq/=);
    rewrite <- ?app_assoc; cbn; eauto.
Qed.

(** X4.  An answer to the first request with a status code other than
    200 makes the raise end with the exception of [request_lots_raise],
    whatever the body says, and nothing more is sent. *)
Theorem raise_bad_status (other : FunPayOther) category exclude w r rest :
  network w = Ok r :: rest ->
  status_code r <> 200 ->
  raise_game_categories category exclude w
  = (Raise (Exn Exception ""), posted RAISE (first_request category) w).
Proof.
  intros Hnet Hstatus.
  unfold raise_game_categories, request_lots_raise, requests_post, bind.
  rewrite Hnet. apply Z.eqb_neq in Hstatus. rewrite Hstatus. reflexivity.
Qed.

(** X5.  When reading the checkboxes of the modal raises, the raise ends
    with that exception and the submission is never sent. *)
Theorem raise_modal_malformed (other : FunPayOther) category exclude w check
    rest checkboxes e :
  network w = ok_response (PDict check) :: rest ->
  dict_get check "error" = PNone ->
  truthy (dict_get check "modal") = true ->
  find_checkboxes (dict_get check "modal") = Ok checkboxes ->
  collect_checkboxes exclude checkboxes = Raise e ->
  raise_game_categories category exclude w
  = (Raise e, posted RAISE (first_request category) w).
Proof.
  intros Hnet Herr Hmodal Hfind Hcollect.
  unfold raise_game_categories.
  rewrite run_bind, (request_lots_raise_ok _ _ _ _ Hnet).
  cbn [bind lift ret py_get]. rewrite Herr.
  change (truthy PNone) with false. change (is_None PNone) with true.
  cbn [andb negb bind ret].
  rewrite bind_lift_ok, Hmodal, Hfind, bind_lift_ok.
  unfold bind, lift. rewrite Hcollect. reflexivity.
Qed.

(** X6.  The loop over the checkboxes reads the label of an entry only
    when its id is not excluded: if every checkbox has an input value and
    every one that is not excluded has a label, the loop succeeds, with
    as many names as ids, the ids being those of the checkboxes that are
    not excluded, in the order of the modal. *)
Theorem collect_checkboxes_reads exclude checkboxes :
  (forall cb, cb ∈ checkboxes -> exists id, cb_input_value cb = Ok id) ->
  (forall cb id, cb ∈ checkboxes -> cb_input_value cb = Ok id ->
                 not_excluded exclude id = true ->
                 exists name, cb_label_text cb = Ok name) ->
  exists ids names,
    collect_checkboxes exclude checkboxes = Ok (ids, names)
    /\ length ids = length names
    /\ Forall (fun id => not_excluded exclude id = true) ids
    /\ ids = filter (fun id => not_excluded exclude id = true)
               (omap (fun cb => match cb_input_value cb with
                                | Ok id => Some id
                                | Raise _ => None
                                end) checkboxes).
Proof.
  induction checkboxes as [|cb cbs IH]; intros Hin Hlabel.
  - exists [], []. done.
  - destruct IH as (ids & names & Hrun & Hlen & Hkept & Hids).
    { intros c Hc. apply Hin. by right. }
    { intros c i Hc. apply Hlabel. by right. }
    destruct (Hin cb) as [id Hid]; [by left|].
    cbn [collect_checkboxes omap list_omap]. rewrite Hid.
    rewrite filter_cons.
    destruct (not_excluded exclude id) eqn:Hk.
    + destruct (Hlabel cb id) as [name Hname]; [by left|done|done|].
      rewrite Hname, Hrun. exists (id :: ids), (name :: names).
      rewrite decide_True by done. cbn. repeat split; try congruence.
      by constructor.
    + rewrite decide_False by discriminate.
      exists ids, names. done.
Qed.

Lemma collect_checkboxes_no_exclusion checkboxes :
  collect_checkboxes None checkboxes = collect_checkboxes (Some []) checkboxes.
Proof.
  induction checkboxes as [|cb cbs IH]; [reflexivity|].
  cbn [collect_checkboxes]. rewrite IH. reflexivity.
Qed.

(** X7.  A raise without an exclusion list and a raise with an empty one
    do the same in every world. *)
Theorem raise_no_exclusion (other : FunPayOther) category w :
  raise_game_categories category None w
  = raise_game_categories category (Some []) w.
Proof.
  unfold raise_game_categories, bind, lift, ret, raise.
  repeat first [ rewrite collect_checkboxes_no_exclusion
               | case_match; simplify_eq/= ];
    try reflexivity.
Qed.
End MoreRaiseProperties.

Lemma raise_errored_sample :
  fst (raise_game_categories (soup := fixed_soup []) (other := spec_other)
         category_0 None (world_of [ok_response (PDict errored_check)] ∅))
  = Ok (Some {| complete := false; wait := 10;
                raised_category_names := [];
                response := PDict errored_check |}).
Proof.
  rewrite (raise_errored (soup := fixed_soup []) spec_other category_0 None
             (world_of [ok_response (PDict errored_check)] ∅)
             errored_check []).
  - reflexivity.
  - reflexivity.
  - reflexivity.
  - right. exists "Forbidden". split; reflexivity.
Defined.

Lemma raise_modal_rejected_sample :
  fst (raise_game_categories
         (soup := fixed_soup (map checkbox_of modal_entries))
         (other := spec_other) category_0 (Some ["11"])
         (world_of [ok_response (PDict modal_check);
                    ok_response (PDict errored_check)] ∅))
  = Ok (Some {| complete := false; wait := 10;
                raised_category_names := [];
                response := PDict errored_check |}).
Proof.
  apply (raise_modal_rejected
           (soup := fixed_soup (map checkbox_of modal_entries)) spec_other
           category_0 (Some ["11"]) _ modal_check
           [ok_response (PDict errored_check)] modal_entries 200
           errored_check []); reflexivity.
Defined.

Lemma raise_bad_status_sample :
  fst (raise_game_categories (soup := fixed_soup []) (other := spec_other)
         category_0 None
         (world_of [Ok {| status_code := 503;
                          json := Ok (PDict cooldown_45) |}] ∅))
  = Raise (Exn Exception "").
Proof.
  rewrite (raise_bad_status (soup := fixed_soup []) spec_other category_0 None
             (world_of [Ok {| status_code := 503;
                              json := Ok (PDict cooldown_45) |}] ∅)
             {| status_code := 503; json := Ok (PDict cooldown_45) |} []).
  - reflexivity.
  - reflexivity.
  - cbn. lia.
Defined.

Lemma raise_modal_malformed_sample :
  raise_game_categories (soup := fixed_soup [broken_input])
    (other := spec_other) category_0 None
    (world_of [ok_response (PDict modal_check); ok_response (PDict ∅)] ∅)
  = (Raise (Exn TypeError "no input"),
     posted RAISE (first_request category_0)
       (world_of [ok_response (PDict modal_check); ok_response (PDict ∅)] ∅)).
Proof.
  apply (raise_modal_malformed (soup := fixed_soup [broken_input]) spec_other
           category_0 None _ modal_check [ok_response (PDict ∅)]
           [broken_input]); reflexivity.
Defined.

Lemma collect_checkboxes_reads_sample :
  exists ids names,
    collect_checkboxes (Some ["11"])
      [checkbox_of ("10", "Gold"); broken_label] = Ok (ids, names)
    /\ length ids = length names.
Proof.
  destruct (collect_checkboxes_reads (Some ["11"])
              [checkbox_of ("10", "Gold"); broken_label])
    as (ids & names & Hrun & Hlen & _).
  - intros cb Hcb.
    apply elem_of_cons in Hcb as [-> | Hcb]; [by exists "10"|].
    apply elem_of_cons in Hcb as [-> | Hcb]; [by exists "11"|].
    by apply elem_of_nil in Hcb.
  - intros cb id Hcb Hid Hkept.
    apply elem_of_cons in Hcb as [-> | Hcb]; [by exists "Gold"|].
    apply elem_of_cons in Hcb as [-> | Hcb]; [|by apply elem_of_nil in Hcb].
    cbn in Hid. injection Hid as <-. vm_compute in Hkept. discriminate.
  - exists ids, names. split; assumption.
Defined.

(** ** More of the command response *)

Lemma count_nil p : count p [] = 0%nat.
Proof. reflexivity. Qed.

Lemma count_cons p ev t :
  count p (ev :: t) = ((if p ev then 1 else 0) + count p t)%nat.
Proof.
  unfold count. rewrite filter_cons.
  destruct (p ev); [rewrite decide_True by done | rewrite decide_False by done];
    reflexivity.
Qed.

Section MoreResponseProperties.
Context {builtins : PyBuiltins} {tools : CardinalTools}.

Lemma send_message_posts node text w r rest :
  str_strip text <> "" ->
  network w = r :: rest ->
  send_message node text w = (and_then r json, sent node text w).
Proof.
  intros Hblank Hnet. unfold send_message. rewrite bind_emit.
  apply String.eqb_neq in Hblank. rewrite Hblank.
  unfold bind, requests_post, lift, sent. cbn [extend network]. rewrite Hnet.
  destruct r as [r|e]; reflexivity.
Qed.

Lemma send_response_run_sent msg cardinal w command template answer inner
    rest :
  auto_response_config cardinal !! str_strip (message_text msg)
    = Some command ->
  command !! "response" = Some template ->
  str_strip (format_msg_text template msg) <> "" ->
  network w = ok_response (PDict answer) :: rest ->
  dict_get answer "response" = PDict inner ->
  truthy (PDict inner) = true ->
  dict_get inner "error" = PNone ->
  send_response msg cardinal w
  = (Ok true,
     extend [EvLog INFO (MsgResponseSent (sender_username msg))]
       (remember (node_id msg)
          (response_message msg (format_msg_text template msg))
          (sent (Some (node_id msg)) (format_msg_text template msg) w))).
Proof.
  intros Hcmd Htpl Hblank Hnet Hresp Htruthy Herr.
  unfold send_response, index.
  rewrite Hcmd, bind_lift_ok, Htpl, bind_lift_ok.
  rewrite run_bind, (send_message_posts _ _ _ _ _ Hblank Hnet).
  cbn [and_then ok_response json py_get]. rewrite bind_lift_ok, Hresp, Htruthy.
  cbn [py_get]. rewrite run_bind, bind_lift_ok, Herr.
  reflexivity.
Qed.

(** X8.  When the stripped text is a command with a response template,
    the rendered response is not blank, and the answer to the send has a
    non-empty response object without an error, [send_response] returns
    True, stores the response as the last message of the chat, with the
    sender, time and tag of the incoming message, and has sent exactly
    the rendered response to the chat of the message. *)
Theorem send_response_sent msg cardinal w command template answer inner rest :
  auto_response_config cardinal !! str_strip (message_text msg)
    = Some command ->
  command !! "response" = Some template ->
  str_strip (format_msg_text template msg) <> "" ->
  network w = ok_response (PDict answer) :: rest ->
  dict_get answer "response" = PDict inner ->
  truthy (PDict inner) = true ->
  dict_get inner "error" = PNone ->
  let response_text := format_msg_text template msg in
  let w' := snd (send_response msg cardinal w) in
  fst (send_response msg cardinal w) = Ok true
  /\ last_messages w'
     = <[node_id msg := response_message msg response_text]> (last_messages w)
  /\ trace w'
     = trace w ++ [EvSendMessage (Some (node_id msg)) response_text;
                   EvPost RUNNER (ChatMessage (Some (node_id msg)) response_text);
                   EvLog INFO (MsgResponseSent (sender_username msg))]
  /\ network w' = rest.
Proof.
  intros Hcmd Htpl Hblank Hnet Hresp Htruthy Herr response_text w'.
  subst w'.
  rewrite (send_response_run_sent _ _ _ _ _ _ _ _
             Hcmd Htpl Hblank Hnet Hresp Htruthy Herr).
  cbn. rewrite Hnet, <- !app_assoc. done.
Qed.

(** X9.  When the answer to the send has no response entry (or a falsy
    one), or a response object with an error that is not None,
    [send_response] returns False, leaves the last messages as they are
    and logs a warning and the answer. *)
Theorem send_response_refused msg cardinal w command template answer rest :
  auto_response_config cardinal !! str_strip (message_text msg)
    = Some command ->
  command !! "response" = Some template ->
  str_strip (format_msg_text template msg) <> "" ->
  network w = ok_response (PDict answer) :: rest ->
  (truthy (dict_get answer "response") = false
   \/ exists inner, dict_get answer "response" = PDict inner
                    /\ dict_get inner "error" <> PNone) ->
  let response_text := format_msg_text template msg in
  let w' := snd (send_response msg cardinal w) in
  fst (send_response msg cardinal w) = Ok false
  /\ last_messages w' = last_messages w
  /\ trace w'
     = trace w ++ [EvSendMessage (Some (node_id msg)) response_text;
                   EvPost RUNNER (ChatMessage (Some (node_id msg)) response_text);
                   EvLog WARNING (MsgResponseSendError (sender_username msg));
                   EvLog DEBUG (MsgRaw (PDict answer))].
Proof.
  intros Hcmd Htpl Hblank Hnet Hbad response_text w'.
  subst w'. unfold send_response, index.
  rewrite Hcmd, bind_lift_ok, Htpl, bind_lift_ok.
  rewrite run_bind, (send_message_posts _ _ _ _ _ Hblank Hnet).
  cbn [and_then ok_response json py_get]. rewrite bind_lift_ok.
  destruct Hbad as [Hfalsy | (inner & Hresp & Herr)].
  - rewrite Hfalsy. unfold log, bind, emit, ret. cbn.
    rewrite <- !app_assoc. done.
  - rewrite Hresp. destruct (truthy (PDict inner)); cbn [py_get].
    + rewrite run_bind, bind_lift_ok.
      destruct (dict_get inner "error") eqn:He; try congruence;
        unfold log, bind, emit, ret; cbn; rewrite <- !app_assoc; done.
    + unfold log, bind, emit, ret. cbn. rewrite <- !app_assoc. done.
Qed.

(** X10.  The handler does nothing at all when the auto response is
    switched off, or when the stripped and lowercased text is no key of
    the configuration; when the option cannot be read as an integer the
    exception of the lookup or of the conversion leaves the handler,
    before anything is done. *)
Theorem send_response_handler_gate msg cardinal w :
  (config_int cardinal "FunPay" "AutoResponse" = Ok 0 ->
   send_response_handler msg cardinal w = (Ok tt, w))
  /\ (forall enabled,
        config_int cardinal "FunPay" "AutoResponse" = Ok enabled ->
        auto_response_config cardinal
          !! str_lower (str_strip (message_text msg)) = None ->
        send_response_handler msg cardinal w = (Ok tt, w))
  /\ (forall e,
        config_int cardinal "FunPay" "AutoResponse" = Raise e ->
        send_response_handler msg cardinal w = (Raise e, w)).
Proof.
  unfold send_response_handler, config_flag. repeat split.
  - intros ->. reflexivity.
  - intros enabled -> Hkey. rewrite bind_lift_ok.
    destruct (enabled =? 0); [reflexivity|].
    rewrite bool_decide_eq_false_2; [reflexivity|].
    rewrite Hkey. by intros [? ?].
  - intros e ->. reflexivity.
Qed.

(** X11.  With the auto response switched on, a command that is a key of
    the configuration both as typed and lowercased, and whose send is
    accepted at once, is answered in one attempt: one send of the
    rendered response, no sleep, and the response stored as the last
    message of the chat. *)
Theorem send_response_handler_first_attempt msg cardinal w enabled command
    template answer inner rest :
  config_int cardinal "FunPay" "AutoResponse" = Ok enabled ->
  enabled <> 0 ->
  is_Some (auto_response_config cardinal
             !! str_lower (str_strip (message_text msg))) ->
  auto_response_config cardinal !! str_strip (message_text msg)
    = Some command ->
  command !! "response" = Some template ->
  str_strip (format_msg_text template msg) <> "" ->
  network w = ok_response (PDict answer) :: rest ->
  dict_get answer "response" = PDict inner ->
  truthy (PDict inner) = true ->
  dict_get inner "error" = PNone ->
  let response_text := format_msg_text template msg in
  let w' := snd (send_response_handler msg cardinal w) in
  fst (send_response_handler msg cardinal w) = Ok tt
  /\ trace w'
     = trace w ++ [EvLog INFO (MsgCommandReceived
                                 (str_strip (message_text msg))
                                 (sender_username msg) (node_id msg));
                   EvSendMessage (Some (node_id msg)) response_text;
                   EvPost RUNNER (ChatMessage (Some (node_id msg)) response_text);
                   EvLog INFO (MsgResponseSent (sender_username msg))]
  /\ last_messages w' !! node_id msg
     = Some (response_message msg response_text).
Proof.
  intros Hcfg Hon Hlower Hcmd Htpl Hblank Hnet Hresp Htruthy Herr
    response_text w'.
  subst w'.
  destruct (send_response_handler msg cardinal w) as [r w'] eqn:Hrun.
  cbn [fst snd]. revert Hrun.
  unfold send_response_handler, config_flag.
  rewrite Hcfg, bind_lift_ok.
  destruct (enabled =? 0) eqn:Hz; [apply Z.eqb_eq in Hz; contradiction|].
  rewrite bool_decide_eq_true_2 by exact Hlower. cbn [negb].
  unfold log at 1. rewrite bind_emit, run_bind.
  cbn [send_response_attempts]. rewrite run_bind. unfold try_.
  erewrite send_response_run_sent; try eassumption.
  cbn [ret negb]. intros [= <- <-].
  cbn [extend remember sent posted trace last_messages].
  rewrite lookup_insert_eq, <- !app_assoc. done.
Qed.

Lemma send_response_world msg cardinal w :
  exists new,
    trace (snd (send_response msg cardinal w)) = trace w ++ new
    /\ (count is_send new <= 1)%nat
    /\ sleeps new = []
    /\ products (snd (send_response msg cardinal w)) = products w.
Proof.
  unfold send_response, send_message, set_last_message, log, emit, index.
  unfold bind, lift, ret, raise, requests_post.
  repeat (case_match; simplify_eq/=); rewrite <- ?app_assoc.
  all: first
    [ by (exists []; rewrite app_nil_r; repeat split; try done; cbn; lia)
    | (eexists; split; [reflexivity|];
       repeat split; try done; unfold count; cbn; lia) ].
Qed.

Lemma send_response_attempts_world attempts msg cardinal w :
  exists done new,
    fst (send_response_attempts attempts msg cardinal w) = Ok done
    /\ trace (snd (send_response_attempts attempts msg cardinal w))
       = trace w ++ new
    /\ (count is_send new <= attempts)%nat
    /\ (length (sleeps new) <= attempts)%nat
    /\ Forall (fun s => s = 1) (sleeps new)
    /\ products (snd (send_response_attempts attempts msg cardinal w))
       = products w.
Proof.
  revert w. induction attempts as [|n IH]; intros w.
  - exists false, []. cbn. rewrite app_nil_r. repeat split; done.
  - cbn [send_response_attempts]. rewrite run_bind. unfold try_.
    destruct (send_response_world msg cardinal w)
      as (new1 & Ht1 & Hc1 & Hs1 & Hp1).
    destruct (send_response msg cardinal w) as [[[|]|e] w1];
      cbn [fst snd] in *.
    + exists true, new1. cbn [ret fst snd]. rewrite Hs1.
      repeat split; try done. lia. cbn; lia.
    + unfold log, sleep. rewrite !bind_emit, !extend_extend. cbn [app].
      set (logs := [EvLog INFO MsgNextAttempt; EvSleep 1]).
      destruct (IH (extend logs w1))
        as (done & new & Hres & Ht & Hc & Hl & Hall & Hp).
      exists done, (new1 ++ logs ++ new). rewrite Hres, Ht, Hp.
      cbn [extend trace products]. rewrite Ht1, Hp1.
      rewrite !count_app, !sleeps_app, Hs1, !length_app.
      change (count is_send logs) with 0%nat. change (sleeps logs) with [1].
      repeat split; try done.
      * by rewrite <- !app_assoc.
      * lia.
      * cbn. lia.
      * cbn. by constructor.
    + unfold log, sleep. rewrite !bind_emit, !extend_extend. cbn [app].
      set (logs := [EvLog ERROR
                      (MsgResponseUnexpectedError (sender_username msg));
                    EvLog DEBUG (MsgTraceback e); EvLog INFO MsgNextAttempt;
                    EvSleep 1]).
      destruct (IH (extend logs w1))
        as (done & new & Hres & Ht & Hc & Hl & Hall & Hp).
      exists done, (new1 ++ logs ++ new). rewrite Hres, Ht, Hp.
      cbn [extend trace products]. rewrite Ht1, Hp1.
      rewrite !count_app, !sleeps_app, Hs1, !length_app.
      change (count is_send logs) with 0%nat. change (sleeps logs) with [1].
      repeat split; try done.
      * by rewrite <- !app_assoc.
      * lia.
      * cbn. lia.
      * cbn. by constructor.
Qed.

(** X12.  Once the option is readable the handler never raises, whatever
    the answers are: it calls [send_message] at most 3 times, sleeps at
    most 3 times, one second each, and leaves the product files alone. *)
Theorem send_response_handler_bounded msg cardinal w enabled :
  config_int cardinal "FunPay" "AutoResponse" = Ok enabled ->
  exists new,
    fst (send_response_handler msg cardinal w) = Ok tt
    /\ trace (snd (send_response_handler msg cardinal w)) = trace w ++ new
    /\ (count is_send new <= 3)%nat
    /\ (length (sleeps new) <= 3)%nat
    /\ Forall (fun s => s = 1) (sleeps new)
    /\ products (snd (send_response_handler msg cardinal w)) = products w.
Proof.
  intros Hcfg.
  destruct (send_response_handler msg cardinal w) as [r w'] eqn:Hrun.
  cbn [fst snd]. revert Hrun.
  unfold send_response_handler, config_flag.
  rewrite Hcfg, bind_lift_ok.
  destruct (enabled =? 0).
  { intros [= <- <-]. exists []. cbn. rewrite app_nil_r.
    repeat split; try done; lia. }
  destruct (negb _).
  { intros [= <- <-]. exists []. cbn. rewrite app_nil_r.
    repeat split; try done; lia. }
  unfold log at 1. rewrite bind_emit, run_bind.
  set (w0 := extend _ w).
  destruct (send_response_attempts_world 3 msg cardinal w0)
    as (done & new & Hres & Ht & Hc & Hl & Hall & Hp).
  destruct (send_response_attempts 3 msg cardinal w0) as [r1 w1].
  cbn [fst snd] in *. subst r1.
  destruct done; cbn [negb].
  - intros [= <- <-]. eexists (_ :: new). rewrite Ht, Hp. subst w0.
    cbn [extend trace products]. rewrite <- app_assoc. cbn [app].
    rewrite count_cons. cbn [is_send]. repeat split; try done.
  - unfold log, emit. intros [= <- <-]. cbn [extend trace products].
    eexists (_ :: new ++ [_]). rewrite Ht, Hp. subst w0.
    cbn [extend trace products]. rewrite <- !app_assoc. cbn [app].
    split; [done|]. split; [done|].
    rewrite count_cons, count_app, count_cons, count_nil.
    cbn [is_send sleeps omap list_omap].
    fold (sleeps (new ++ [EvLog ERROR MsgResponseAttemptsExceeded])).
    rewrite sleeps_app. cbn. rewrite app_nil_r.
    repeat split; try done; lia.
Qed.
End MoreResponseProperties.

Lemma send_response_sent_sample :
  fst (send_response (builtins := ascii_builtins) (tools := plain_tools)
         plain_help stock_cardinal
         (world_of [ok_response (PDict accepted_answer)] ∅))
  = Ok true.
Proof.
  refine (proj1 (send_response_sent (builtins := ascii_builtins)
                   (tools := plain_tools) plain_help stock_cardinal
                   (world_of [ok_response (PDict accepted_answer)] ∅)
                   {[ "response" := "Ask the seller" ]} "Ask the seller"
                   accepted_answer {[ "ok" := PBool true ]} []
                   _ _ _ _ _ _ _)); try reflexivity.
  vm_compute. discriminate.
Defined.

Lemma send_response_refused_sample :
  fst (send_response (builtins := ascii_builtins) (tools := plain_tools)
         plain_help stock_cardinal (world_of [ok_response (PDict ∅)] ∅))
  = Ok false.
Proof.
  refine (proj1 (send_response_refused (builtins := ascii_builtins)
                   (tools := plain_tools) plain_help stock_cardinal
                   (world_of [ok_response (PDict ∅)] ∅)
                   {[ "response" := "Ask the seller" ]} "Ask the seller"
                   ∅ [] _ _ _ _ _)); try reflexivity.
  - vm_compute. discriminate.
  - left. reflexivity.
Defined.

Lemma send_response_handler_gate_sample :
  send_response_handler (builtins := ascii_builtins) (tools := plain_tools)
    {| node_id := 11; message_text := "hello"; sender_username := "buyer";
       send_time := 0; tag := "t" |} stock_cardinal offline_world
  = (Ok tt, offline_world).
Proof.
  apply (proj1 (proj2 (send_response_handler_gate
                         (builtins := ascii_builtins) (tools := plain_tools)
                         _ stock_cardinal offline_world)) 1);
    reflexivity.
Defined.

Lemma send_response_handler_first_attempt_sample :
  trace (snd (send_response_handler (builtins := ascii_builtins)
                (tools := plain_tools) plain_help stock_cardinal
                (world_of [ok_response (PDict accepted_answer)] ∅)))
  = [EvLog INFO (MsgCommandReceived "help" "buyer" 11);
     EvSendMessage (Some 11) "Ask the seller";
     EvPost RUNNER (ChatMessage (Some 11) "Ask the seller");
     EvLog INFO (MsgResponseSent "buyer")].
Proof.
  refine (proj1 (proj2 (send_response_handler_first_attempt
                          (builtins := ascii_builtins) (tools := plain_tools)
                          plain_help stock_cardinal
                          (world_of [ok_response (PDict accepted_answer)] ∅)
                          1 {[ "response" := "Ask the seller" ]}
                          "Ask the seller" accepted_answer
                          {[ "ok" := PBool true ]} []
                          _ _ _ _ _ _ _ _ _ _))); try reflexivity.
  - lia.
  - vm_compute. eauto.
  - vm_compute. discriminate.
Defined.

Lemma send_response_handler_bounded_sample :
  exists new,
    trace (snd (send_response_handler (builtins := ascii_builtins)
                  (tools := plain_tools) shouted_help stock_cardinal
                  offline_world))
    = trace offline_world ++ new
    /\ (count is_send new <= 3)%nat.
Proof.
  destruct (send_response_handler_bounded (builtins := ascii_builtins)
              (tools := plain_tools) shouted_help stock_cardinal
              offline_world 1 eq_refl)
    as (new & _ & Htrace & Hsends & _).
  exists new. split; assumption.
Defined.

(** ** More of the delivery *)

Lemma find_first_match {A} (p : A -> bool) before x after :
  Forall (fun y => p y = false) before ->
  p x = true ->
  find p (before ++ x :: after) = Some x.
Proof.
  intros Hbefore Hx. induction Hbefore as [|y ys Hy _ IH]; cbn.
  - by rewrite Hx.
  - by rewrite Hy.
Qed.

Section MoreDeliveryProperties.
Context {builtins : PyBuiltins} {soup : Soup} {tools : CardinalTools}.

Lemma send_product_text_first node text order cardinal w r body rest :
  str_strip text <> "" ->
  network w = Ok r :: rest ->
  json r = Ok body ->
  send_product_text node text order cardinal w = (Ok true, sent node text w).
Proof.
  intros Hblank Hnet Hjson. unfold send_product_text.
  cbn [send_product_attempts]. rewrite run_bind. unfold try_.
  rewrite (send_message_posts _ _ _ _ _ Hblank Hnet). cbn [and_then].
  rewrite Hjson. reflexivity.
Qed.

(** X13.  A product text that is not blank counts as sent as soon as the
    request is answered with a body that decodes, whatever the status
    code and whatever the body says: one attempt, no log, no sleep. *)
Theorem send_product_text_ignores_answer node text order cardinal w r body
    rest :
  str_strip text <> "" ->
  network w = Ok r :: rest ->
  json r = Ok body ->
  send_product_text node text order cardinal w = (Ok true, sent node text w).
Proof. apply send_product_text_first. Qed.

Lemma send_product_attempts_blank attempts node text order w :
  str_strip text = "" ->
  send_product_attempts attempts node text order w
  = (Ok false,
     extend (concat (replicate attempts (blank_send_attempt node text order)))
       w).
Proof.
  intros Hblank. revert w. induction attempts as [|n IH]; intros w.
  - cbn. by rewrite extend_nil.
  - cbn [send_product_attempts replicate concat]. rewrite run_bind.
    unfold try_, send_message. rewrite bind_emit, Hblank.
    cbn [String.eqb raise]. unfold log, sleep.
    rewrite !bind_emit, !extend_extend, IH, extend_extend. reflexivity.
Qed.

(** X14.  A blank product text is never posted: each of the 3 attempts
    ends in the exception of [send_message] before any request, is logged
    and slept on, and the send fails with the answers left unconsumed. *)
Theorem send_product_text_blank node text order cardinal w :
  str_strip text = "" ->
  send_product_text node text order cardinal w
  = (Ok false,
     extend (concat (replicate 3 (blank_send_attempt node text order))) w).
Proof. apply send_product_attempts_blank. Qed.

(** X15.  The delivery rule is the first lot name of the configuration
    that occurs in the title of the order: the names before it that do
    not occur and all the rules after it make no difference. *)
Theorem deliver_product_first_match order cardinal w before rule after :
  Forall (fun lot => str_in (fst lot) (order_title order) = false) before ->
  str_in (fst rule) (order_title order) = true ->
  deliver_product order
    (with_delivery_config cardinal (before ++ rule :: after)) w
  = deliver_product order (with_delivery_config cardinal [rule]) w.
Proof.
  intros Hbefore Hrule. unfold deliver_product.
  cbn [with_delivery_config auto_delivery_config account].
  rewrite (find_first_match _ _ _ _ Hbefore Hrule).
  cbn [find]. rewrite Hrule. reflexivity.
Qed.

Lemma get_node_id_run self username force w node :
  fst (get_node_id_by_username self username force w) = Ok node ->
  get_node_id_by_username self username force w = (Ok node, w).
Proof.
  intros H. pose proof (get_node_id_world self username force w) as Hw.
  destruct (get_node_id_by_username self username force w) as [r w'].
  cbn in *. congruence.
Qed.

(** X16.  When the matched rule has no product file, the rendered
    response is sent as it is, a $product in it included, to the chat
    found for the buyer, be it None; when the send is answered the result
    is (True, the text, -1) and no product file is touched. *)
Theorem deliver_product_template order cardinal w lot delivery_obj node
    template r body rest :
  find (fun lot => str_in (fst lot) (order_title order))
       (auto_delivery_config cardinal) = Some (lot, delivery_obj) ->
  fst (get_node_id_by_username (account cardinal) (order_buyer_name order)
         false w) = Ok node ->
  delivery_obj !! "response" = Some template ->
  delivery_obj !! "productsFilePath" = None ->
  str_strip (format_order_text template order) <> "" ->
  network w = Ok r :: rest ->
  json r = Ok body ->
  let text := format_order_text template order in
  deliver_product order cardinal w
  = (Ok (Some (true, text, -1)), sent node text w).
Proof.
  intros Hfind Hnode Htpl Hpath Hblank Hnet Hjson text.
  unfold deliver_product, index. rewrite Hfind, run_bind.
  rewrite (get_node_id_run _ _ _ _ _ Hnode), Htpl, bind_lift_ok, Hpath.
  rewrite run_bind,
    (send_product_text_first _ _ _ _ _ _ _ _ Hblank Hnet Hjson).
  reflexivity.
Qed.

(** X17.  When the matched rule has a product file with a unit in it and
    the send is answered, the text sent is the rendered response with
    every $product replaced by the first unit, the result is True, and
    the file has lost exactly that unit. *)
Theorem deliver_product_consumes_unit order cardinal w lot delivery_obj node
    template path unit units r body rest :
  find (fun lot => str_in (fst lot) (order_title order))
       (auto_delivery_config cardinal) = Some (lot, delivery_obj) ->
  fst (get_node_id_by_username (account cardinal) (order_buyer_name order)
         false w) = Ok node ->
  delivery_obj !! "response" = Some template ->
  delivery_obj !! "productsFilePath" = Some path ->
  products w !! path = Some (unit :: units) ->
  let text := str_replace (format_order_text template order) "$product" unit in
  str_strip text <> "" ->
  network w = Ok r :: rest ->
  json r = Ok body ->
  let w' := snd (deliver_product order cardinal w) in
  fst (deliver_product order cardinal w) = Ok (Some (true, text, -1))
  /\ products w' = <[path := units]> (products w)
  /\ trace w' = trace w ++ [EvSendMessage node text;
                            EvPost RUNNER (ChatMessage node text)]
  /\ S (inventory_size path w') = inventory_size path w.
Proof.
  intros Hfind Hnode Htpl Hpath Hstock text Hblank Hnet Hjson.
  destruct (deliver_product order cardinal w) as [res w'] eqn:Hrun.
  cbn [fst snd]. revert Hrun.
  unfold deliver_product, index. rewrite Hfind, run_bind.
  rewrite (get_node_id_run _ _ _ _ _ Hnode), Htpl, bind_lift_ok, Hpath.
  rewrite run_bind. unfold get_product_from_json at 1. rewrite Hstock.
  cbn [fst]. rewrite run_bind.
  erewrite send_product_text_first; [|exact Hblank|exact Hnet|exact Hjson].
  cbn [negb]. rewrite run_bind. cbn [ret]. intros [= <- <-].
  unfold sent, posted, extend, inventory_size.
  cbn [products trace network].
  rewrite lookup_insert_eq, Hstock, <- app_assoc. done.
Qed.

(** X18.  A matched rule without a response template makes the delivery
    raise the KeyError of that key before anything is taken from a
    product file or sent. *)
Theorem deliver_product_no_template order cardinal w lot delivery_obj node :
  find (fun lot => str_in (fst lot) (order_title order))
       (auto_delivery_config cardinal) = Some (lot, delivery_obj) ->
  fst (get_node_id_by_username (account cardinal) (order_buyer_name order)
         false w) = Ok node ->
  delivery_obj !! "response" = None ->
  deliver_product order cardinal w = (Raise (key_error "response"), w).
Proof.
  intros Hfind Hnode Htpl.
  unfold deliver_product, index. rewrite Hfind, run_bind.
  rewrite (get_node_id_run _ _ _ _ _ Hnode), Htpl. reflexivity.
Qed.

(** X19.  The delivery handler does nothing when the auto delivery is
    switched off; when no lot name of the configuration occurs in the
    title it logs that and runs none of the delivery handlers. *)
Theorem delivery_handler_silent order cardinal w :
  (config_int cardinal "FunPay" "autoDelivery" = Ok 0 ->
   delivery_product_handler order cardinal w = (Ok tt, w))
  /\ (forall enabled,
        config_int cardinal "FunPay" "autoDelivery" = Ok enabled ->
        enabled <> 0 ->
        find (fun lot => str_in (fst lot) (order_title order))
             (auto_delivery_config cardinal) = None ->
        delivery_product_handler order cardinal w
        = (Ok tt, extend [EvLog INFO (MsgLotNotInConfig (order_title order))]
                    w)).
Proof.
  unfold delivery_product_handler, config_flag. split.
  - intros ->. reflexivity.
  - intros enabled -> Hon Hfind. rewrite bind_lift_ok.
    destruct (enabled =? 0) eqn:Hz; [apply Z.eqb_eq in Hz; contradiction|].
    unfold try_except_Exception, deliver_product. rewrite Hfind. reflexivity.
Qed.

(** X20.  After a delivery that was sent, the handler logs it and runs
    the delivery handlers on the order and the delivered text, without
    the errored flag. *)
Theorem delivery_handler_reports_success order cardinal w enabled text n w3 :
  config_int cardinal "FunPay" "autoDelivery" = Ok enabled ->
  enabled <> 0 ->
  deliver_product order cardinal w = (Ok (Some (true, text, n)), w3) ->
  delivery_product_handler order cardinal w
  = run_handlers (delivery_event_handlers cardinal)
      (DeliveryArgs order text None)
      (extend [EvLog INFO (MsgDelivered (order_id order))] w3).
Proof.
  intros Hcfg Hon Hdel.
  unfold delivery_product_handler, config_flag. rewrite Hcfg, bind_lift_ok.
  destruct (enabled =? 0) eqn:Hz; [apply Z.eqb_eq in Hz; contradiction|].
  unfold try_except_Exception. rewrite run_bind, Hdel.
  unfold log. rewrite bind_emit, run_handlers_fold. reflexivity.
Qed.

(** X21.  When the delivery raises an exception of class Exception, the
    handler logs it with its stack trace and runs the delivery handlers
    on the order, the text of the exception and errored = True. *)
Theorem delivery_handler_reports_exception order cardinal w enabled e w3 :
  config_int cardinal "FunPay" "autoDelivery" = Ok enabled ->
  enabled <> 0 ->
  deliver_product order cardinal w = (Raise e, w3) ->
  is_Exception e = true ->
  delivery_product_handler order cardinal w
  = run_handlers (delivery_event_handlers cardinal)
      (DeliveryArgs order (exn_str e) (Some true))
      (extend [EvLog ERROR (MsgDeliveryUnexpectedError (order_id order));
               EvLog DEBUG (MsgTraceback e)] w3).
Proof.
  intros Hcfg Hon Hdel Hexc.
  unfold delivery_product_handler, config_flag. rewrite Hcfg, bind_lift_ok.
  destruct (enabled =? 0) eqn:Hz; [apply Z.eqb_eq in Hz; contradiction|].
  unfold try_except_Exception. rewrite run_bind, Hdel, Hexc.
  unfold log. rewrite !bind_emit, extend_extend. reflexivity.
Qed.

(** X22.  Once the option is readable, no exception of class Exception
    leaves the delivery handler: it returns, or it raises an exception
    that is not of that class. *)
Theorem delivery_handler_contains_exceptions order cardinal w enabled :
  config_int cardinal "FunPay" "autoDelivery" = Ok enabled ->
  fst (delivery_product_handler order cardinal w) = Ok tt
  \/ exists e, fst (delivery_product_handler order cardinal w) = Raise e
               /\ is_Exception e = false.
Proof.
  intros Hcfg.
  unfold delivery_product_handler, config_flag. rewrite Hcfg, bind_lift_ok.
  destruct (enabled =? 0); [by left|].
  unfold try_except_Exception. rewrite run_bind.
  destruct (deliver_product order cardinal w) as [[[[[[|] text] n]|]|e] w3].
  - unfold log. rewrite bind_emit, run_handlers_fold. by left.
  - unfold log. rewrite bind_emit, run_handlers_fold. by left.
  - by left.
  - destruct (is_Exception e) eqn:He.
    + unfold log. rewrite !bind_emit, run_handlers_fold. by left.
    + right. eauto.
Qed.
End MoreDeliveryProperties.

Lemma send_product_text_ignores_answer_sample :
  send_product_text (builtins := ascii_builtins) None "key-1" "ORD-1"
    stock_cardinal
    (world_of [Ok {| status_code := 500;
                     json := Ok (PDict errored_check) |}] ∅)
  = (Ok true,
     sent None "key-1"
       (world_of [Ok {| status_code := 500;
                        json := Ok (PDict errored_check) |}] ∅)).
Proof.
  apply (send_product_text_ignores_answer (builtins := ascii_builtins)
           None "key-1" "ORD-1" stock_cardinal _
           {| status_code := 500; json := Ok (PDict errored_check) |}
           (PDict errored_check) []); try reflexivity.
  vm_compute. discriminate.
Defined.

Lemma send_product_text_blank_sample :
  send_product_text (builtins := ascii_builtins) None "  " "ORD-1"
    stock_cardinal online_world
  = (Ok false,
     extend (concat (replicate 3 (blank_send_attempt None "  " "ORD-1")))
       online_world).
Proof.
  apply (send_product_text_blank (builtins := ascii_builtins)).
  reflexivity.
Defined.

Lemma deliver_product_first_match_sample :
  deliver_product (builtins := ascii_builtins) (soup := fixed_soup [])
    (tools := plain_tools) stock_order
    (with_delivery_config stock_cardinal
       ([("Silver", ∅)] ++ stock_rule :: [template_rule])) online_world
  = deliver_product (builtins := ascii_builtins) (soup := fixed_soup [])
      (tools := plain_tools) stock_order
      (with_delivery_config stock_cardinal [stock_rule]) online_world.
Proof.
  apply (deliver_product_first_match (builtins := ascii_builtins)
           (soup := fixed_soup []) (tools := plain_tools)).
  - repeat constructor.
  - reflexivity.
Defined.

Lemma deliver_product_template_sample :
  deliver_product (builtins := ascii_builtins) (soup := fixed_soup [])
    (tools := plain_tools) stock_order
    (with_delivery_config stock_cardinal [template_rule]) online_world
  = (Ok (Some (true, "Thanks, $product delivered!", -1)),
     sent None "Thanks, $product delivered!"
       online_world).
Proof.
  apply (deliver_product_template (builtins := ascii_builtins)
           (soup := fixed_soup []) (tools := plain_tools) stock_order
           (with_delivery_config stock_cardinal [template_rule]) online_world
           "Gold" (snd template_rule) None "Thanks, $product delivered!"
           {| status_code := 200; json := Ok (PDict ∅) |} (PDict ∅) []);
    try reflexivity.
  vm_compute. discriminate.
Defined.

Lemma deliver_product_consumes_unit_sample :
  S (inventory_size "gold.json"
       (snd (deliver_product (builtins := ascii_builtins)
               (soup := fixed_soup []) (tools := plain_tools)
               stock_order stock_cardinal online_world)))
  = inventory_size "gold.json" online_world.
Proof.
  refine (proj2 (proj2 (proj2 (deliver_product_consumes_unit
            (builtins := ascii_builtins) (soup := fixed_soup [])
            (tools := plain_tools) stock_order stock_cardinal online_world
            "Gold" (snd stock_rule) None "Thanks, $product delivered!"
            "gold.json" "key-1" ["key-2"; "key-3"]
            {| status_code := 200; json := Ok (PDict ∅) |} (PDict ∅) []
            _ _ _ _ _ _ _ _)))); try reflexivity.
  vm_compute. discriminate.
Defined.

Lemma deliver_product_no_template_sample :
  deliver_product (builtins := ascii_builtins) (soup := fixed_soup [])
    (tools := plain_tools) stock_order
    (with_delivery_config stock_cardinal [("Gold", ∅)]) online_world
  = (Raise (key_error "response"), online_world).
Proof.
  apply (deliver_product_no_template (builtins := ascii_builtins)
           (soup := fixed_soup []) (tools := plain_tools) stock_order
           (with_delivery_config stock_cardinal [("Gold", ∅)]) online_world
           "Gold" ∅ None); reflexivity.
Defined.

Lemma delivery_handler_silent_sample :
  delivery_product_handler (builtins := ascii_builtins)
    (soup := fixed_soup []) (tools := plain_tools) sword_order stock_cardinal
    online_world
  = (Ok tt, extend [EvLog INFO (MsgLotNotInConfig "Iron sword")] online_world).
Proof.
  apply (proj2 (delivery_handler_silent (builtins := ascii_builtins)
                  (soup := fixed_soup []) (tools := plain_tools) sword_order
                  stock_cardinal online_world) 1);
    [reflexivity | lia | reflexivity].
Defined.

Lemma delivery_handler_reports_success_sample :
  delivery_product_handler (builtins := ascii_builtins)
    (soup := fixed_soup []) (tools := plain_tools) stock_order stock_cardinal
    online_world
  = run_handlers []
      (DeliveryArgs stock_order "Thanks, key-1 delivered!" None)
      (extend [EvLog INFO (MsgDelivered "ORD-1")]
         (snd (deliver_product (builtins := ascii_builtins)
                 (soup := fixed_soup []) (tools := plain_tools)
                 stock_order stock_cardinal online_world))).
Proof.
  apply (delivery_handler_reports_success (builtins := ascii_builtins)
           (soup := fixed_soup []) (tools := plain_tools) stock_order
           stock_cardinal online_world 1 "Thanks, key-1 delivered!" (-1)).
  - reflexivity.
  - lia.
  - vm_compute. reflexivity.
Defined.

Lemma delivery_handler_reports_exception_sample :
  delivery_product_handler (builtins := ascii_builtins)
    (soup := fixed_soup []) (tools := plain_tools) stock_order
    (with_delivery_config stock_cardinal [("Gold", ∅)]) online_world
  = run_handlers []
      (DeliveryArgs stock_order "'response'" (Some true))
      (extend [EvLog ERROR (MsgDeliveryUnexpectedError "ORD-1");
               EvLog DEBUG (MsgTraceback (key_error "response"))]
         online_world).
Proof.
  apply (delivery_handler_reports_exception (builtins := ascii_builtins)
           (soup := fixed_soup []) (tools := plain_tools) stock_order
           (with_delivery_config stock_cardinal [("Gold", ∅)]) online_world 1
           (key_error "response") online_world).
  - reflexivity.
  - lia.
  - reflexivity.
  - reflexivity.
Defined.

Lemma delivery_handler_contains_exceptions_sample :
  fst (delivery_product_handler (builtins := ascii_builtins)
         (soup := fixed_soup []) (tools := plain_tools) stock_order
         (with_delivery_config stock_cardinal [("Gold", ∅)]) online_world)
  = Ok tt
  \/ exists e,
      fst (delivery_product_handler (builtins := ascii_builtins)
             (soup := fixed_soup []) (tools := plain_tools) stock_order
             (with_delivery_config stock_cardinal [("Gold", ∅)]) online_world)
      = Raise e
      /\ is_Exception e = false.
Proof.
  apply (delivery_handler_contains_exceptions (builtins := ascii_builtins)
           (soup := fixed_soup []) (tools := plain_tools) stock_order
           (with_delivery_config stock_cardinal [("Gold", ∅)]) online_world 1).
  reflexivity.
Defined.

(** ** The orders page and the lot form *)

Lemma order_div_status_wanted io ic ir classes status :
  order_div_status io ic ir classes = Some status ->
  status_wanted io ic ir status = true /\ status = class_status classes.
Proof.
  unfold order_div_status, class_status.
  repeat case_match; intros [= <-]; done.
Qed.

Lemma order_of_div_fields div status id order :
  order_of_div div status id = Ok order ->
  order_id order = id
  /\ order_status order = status
  /\ div_title div = Ok (order_title order)
  /\ div_price div = Ok (order_price order)
  /\ div_buyer_name div = Ok (order_buyer_name order)
  /\ div_buyer_id div = Ok (order_buyer_id order).
Proof.
  unfold order_of_div, and_then.
  repeat case_match; intros [= <-]; done.
Qed.

Lemma parse_order_divs_sound io ic ir exclude divs orders :
  parse_order_divs io ic ir exclude divs = Ok orders ->
  Forall (fun order =>
            status_wanted io ic ir (order_status order) = true
            /\ (order_id order ∉ exclude)
            /\ exists div, div ∈ divs /\ order_read_from div order) orders
  /\ (length orders <= length divs)%nat.
Proof.
  revert orders. induction divs as [|div divs IH]; intros orders.
  - intros [= <-]. split; [constructor | done].
  - assert (Hweaken : forall parsed,
      Forall (fun order =>
                status_wanted io ic ir (order_status order) = true
                /\ (order_id order ∉ exclude)
                /\ exists d, d ∈ divs /\ order_read_from d order) parsed ->
      Forall (fun order =>
                status_wanted io ic ir (order_status order) = true
                /\ (order_id order ∉ exclude)
                /\ exists d, d ∈ div :: divs /\ order_read_from d order)
        parsed).
    { intros parsed Hparsed. eapply Forall_impl; [exact Hparsed|].
      intros order (Hs & Hx & d & Hd & Hr). repeat split; try done.
      exists d. split; [by right | done]. }
    cbn [parse_order_divs].
    destruct (order_div_status io ic ir (div_class div)) as [status|] eqn:Hs.
    + unfold and_then at 1.
      destruct (div_order_id div) as [id|e] eqn:Hdiv; [|done].
      case_bool_decide as Hex.
      * intros H. destruct (IH _ H). split; [by apply Hweaken | cbn; lia].
      * unfold and_then.
        destruct (order_of_div div status id) as [order|e] eqn:Ho; [|done].
        destruct (parse_order_divs io ic ir exclude divs) as [parsed|e];
          [|done].
        intros [= <-]. destruct (IH _ eq_refl) as [Hall Hlen].
        apply order_of_div_fields in Ho
          as (Hid & Hst & Ht & Hp & Hn & Hb).
        apply order_div_status_wanted in Hs as [Hwanted Hclass].
        split; [|cbn; lia]. constructor; [|by apply Hweaken].
        rewrite Hid, Hst. repeat split; try done.
        exists div. split; [by left|].
        unfold order_read_from. rewrite Hid, Hst. done.
    + intros H. destruct (IH _ H). split; [by apply Hweaken | cbn; lia].
Qed.

(** X23.  Every order [get_account_orders] returns is read from an
    element of the page: it has the id, title, price and buyer of that
    element and the status of its classes (refund for an element of class
    warning, else outstanding for one of class info, else completed);
    that status is one that was asked for, and the id is not in the
    exclusion list. *)
Theorem get_account_orders_filters page io ic ir exclude orders :
  get_account_orders (Ok page) io ic ir exclude = Ok orders ->
  Forall (fun order =>
            status_wanted io ic ir (order_status order) = true
            /\ (order_id order ∉ default [] exclude)
            /\ exists div, div ∈ orders_divs page
                           /\ order_read_from div order) orders.
Proof.
  unfold get_account_orders, and_then.
  destruct (negb (orders_status_code page =? 200)); [done|].
  destruct (negb (orders_user_found page)); [done|].
  intros Hparse. apply parse_order_divs_sound in Hparse as [Hall _].
  destruct exclude as [[|id ids]|]; exact Hall.
Qed.

(** X24.  A page with a status code other than 200, or without the
    element that shows a logged-in user, makes [get_account_orders]
    raise, whatever orders the page lists. *)
Theorem get_account_orders_rejects_page page io ic ir exclude :
  orders_status_code page <> 200 \/ orders_user_found page = false ->
  get_account_orders (Ok page) io ic ir exclude = Raise (Exn Exception "").
Proof.
  unfold get_account_orders, and_then. intros [Hs | Hu].
  - apply Z.eqb_neq in Hs. by rewrite Hs.
  - rewrite Hu. by destruct (negb _).
Qed.

Lemma payload_step_other state payload field name :
  fst field <> name ->
  payload_step state payload field !! name = payload !! name.
Proof.
  intros Hne. unfold payload_step.
  destruct (String.eqb (fst field) "active") eqn:Ha.
  - apply String.eqb_eq in Ha. destruct state; [|done].
    rewrite lookup_insert_ne; [done|congruence].
  - by rewrite lookup_insert_ne.
Qed.

Lemma payload_fold_other state fields payload name :
  name ∉ fields.*1 ->
  fold_left (payload_step state) fields payload !! name = payload !! name.
Proof.
  revert payload. induction fields as [|field fields IH]; intros payload Hnot;
    [done|].
  rewrite fmap_cons in Hnot. apply not_elem_of_cons in Hnot as [Hne Hrest].
  cbn [fold_left]. rewrite IH by done.
  apply payload_step_other. congruence.
Qed.

Lemma payload_fold_inactive fields payload :
  payload !! "active" = None ->
  fold_left (payload_step false) fields payload !! "active" = None.
Proof.
  revert payload. induction fields as [|field fields IH]; intros payload Hp;
    [done|].
  cbn [fold_left]. apply IH. unfold payload_step.
  destruct (String.eqb (fst field) "active") eqn:Ha; [done|].
  apply String.eqb_neq in Ha. by rewrite lookup_insert_ne.
Qed.

Lemma payload_fold_active fields payload :
  "active" ∈ fields.*1 \/ payload !! "active" = Some "on" ->
  fold_left (payload_step true) fields payload !! "active" = Some "on".
Proof.
  revert payload. induction fields as [|field fields IH]; intros payload H.
  - destruct H as [H|H]; [|done]. by apply elem_of_nil in H.
  - cbn [fold_left]. apply IH. unfold payload_step.
    destruct (String.eqb (fst field) "active") eqn:Ha.
    + right. apply lookup_insert_eq.
    + apply String.eqb_neq in Ha. rewrite lookup_insert_ne by done.
      destruct H as [H|H]; [|by right].
      rewrite fmap_cons in H. apply elem_of_cons in H as [H|H];
        [congruence | by left].
Qed.

(** X25.  The form data of [change_lot_state] always has location =
    trade, a field of that name in the lot being overwritten; it has no
    active entry when the target state is False, and active = on when the
    state is True and the lot has a field active; a name the lot does not
    have is absent; any other field has the value of its last
    occurrence. *)
Theorem change_lot_state_payload_fields lot_info state :
  let payload := change_lot_state_payload lot_info state in
  payload !! "location" = Some "trade"
  /\ (state = false -> payload !! "active" = None)
  /\ (state = true -> "active" ∈ lot_info.*1 ->
      payload !! "active" = Some "on")
  /\ (forall name, name <> "location" -> name ∉ lot_info.*1 ->
                   payload !! name = None)
  /\ (forall before name value after,
        lot_info = before ++ (name, value) :: after ->
        name ∉ after.*1 -> name <> "location" -> name <> "active" ->
        payload !! name = Some value).
Proof.
  unfold change_lot_state_payload. cbn zeta.
  split; [apply lookup_insert_eq|]. split; [|split; [|split]].
  - intros ->. rewrite lookup_insert_ne by done.
    by apply payload_fold_inactive.
  - intros -> Hin. rewrite lookup_insert_ne by done.
    apply payload_fold_active. by left.
  - intros name Hloc Hnot. rewrite lookup_insert_ne by done.
    by rewrite payload_fold_other.
  - intros before name value after -> Hafter Hloc Hact.
    rewrite lookup_insert_ne by done.
    rewrite fold_left_app. cbn [fold_left].
    rewrite payload_fold_other by done.
    unfold payload_step. cbn [fst snd].
    apply String.eqb_neq in Hact. rewrite Hact. apply lookup_insert_eq.
Qed.

Lemma get_lot_info_of_form inputs textareas selects :
  get_lot_info (form_of inputs textareas selects)
  = Ok (map (fun f => (fst f, default "" (snd f))) inputs
        ++ textareas ++ selects).
Proof.
  unfold get_lot_info, form_of. cbn [form_inputs form_textareas form_selects].
  assert (Hin : input_entries
            (map (fun f => {| input_name := Ok (fst f);
                              input_value := snd f |}) inputs)
          = Ok (map (fun f => (fst f, default "" (snd f))) inputs)).
  { induction inputs as [|f fs IH]; [done|]. cbn. by rewrite IH. }
  assert (Ht : textarea_entries
            (map (fun f => {| textarea_name := Ok (fst f);
                              textarea_text := snd f |}) textareas)
          = Ok textareas).
  { induction textareas as [|[n t] fs IH]; [done|]. cbn. by rewrite IH. }
  assert (Hs : select_entries
            (map (fun f => {| select_name := Ok (fst f);
                              select_value := Ok (snd f) |}) selects)
          = Ok selects).
  { induction selects as [|[n t] fs IH]; [done|]. cbn. by rewrite IH. }
  rewrite Hin, Ht, Hs. reflexivity.
Qed.

(** X26.  For a form whose fields all have a name and whose selects all
    have a selected option, [get_lot_info] returns one pair per field,
    the inputs first, then the text areas, then the selects, each in the
    order of the page, an input without a value getting the empty
    string. *)
Theorem get_lot_info_pairs inputs textareas selects :
  get_lot_info (form_of inputs textareas selects)
  = Ok (map (fun f => (fst f, default "" (snd f))) inputs
        ++ textareas ++ selects).
Proof. apply get_lot_info_of_form. Qed.

(** X27.  For the fields [get_lot_info] read from a form with an input
    named active, the form data for the state True carries active = on,
    whatever value the input had, and the form data for the state False
    carries no active entry. *)
Theorem change_lot_state_activates inputs textareas selects lot_info :
  get_lot_info (form_of inputs textareas selects) = Ok lot_info ->
  "active" ∈ inputs.*1 ->
  change_lot_state_payload lot_info true !! "active" = Some "on"
  /\ change_lot_state_payload lot_info false !! "active" = None.
Proof.
  rewrite get_lot_info_of_form. intros [= <-] Hin. split.
  - unfold change_lot_state_payload. rewrite lookup_insert_ne by done.
    apply payload_fold_active. left.
    rewrite !fmap_app. apply elem_of_app. left.
    apply list_elem_of_fmap in Hin as ([n v] & Hn & Hy).
    apply list_elem_of_fmap. exists (n, default "" v). split; [done|].
    apply list_elem_of_fmap. exists (n, v). done.
  - unfold change_lot_state_payload. rewrite lookup_insert_ne by done.
    by apply payload_fold_inactive.
Qed.

Lemma get_account_orders_filters_sample :
  Forall (fun order =>
            status_wanted true false true (order_status order) = true
            /\ (order_id order ∉ ["A4"])
            /\ exists div, div ∈ orders_divs orders_page
                           /\ order_read_from div order)
    [{| order_id := "A1"; order_title := "100 Gold";
        order_price := Qmake 15 1; order_buyer_name := "buyer";
        order_buyer_id := 5; order_status := OUTSTANDING |};
     {| order_id := "A2"; order_title := "100 Gold";
        order_price := Qmake 15 1; order_buyer_name := "buyer";
        order_buyer_id := 5; order_status := REFUND |}].
Proof.
  apply (get_account_orders_filters orders_page true false true
           (Some ["A4"])).
  reflexivity.
Defined.

Lemma get_account_orders_rejects_page_sample :
  get_account_orders
    (Ok {| orders_status_code := 200; orders_user_found := false;
           orders_divs := orders_divs orders_page |})
    true true true None
  = Raise (Exn Exception "").
Proof.
  apply get_account_orders_rejects_page. right. reflexivity.
Defined.

Lemma change_lot_state_payload_fields_sample :
  change_lot_state_payload
    [("price", "10"); ("active", ""); ("price", "12"); ("location", "x")]
    true !! "price" = Some "12".
Proof.
  apply (proj2 (proj2 (proj2 (proj2
           (change_lot_state_payload_fields
              [("price", "10"); ("active", ""); ("price", "12");
               ("location", "x")] true))))
           [("price", "10"); ("active", "")] "price" "12"
           [("location", "x")]).
  - reflexivity.
  - vm_compute. intros H.
    apply elem_of_cons in H as [H|H]; [discriminate|].
    by apply elem_of_nil in H.
  - discriminate.
  - discriminate.
Defined.

Lemma change_lot_state_activates_sample :
  change_lot_state_payload
    [("active", ""); ("price", "10"); ("summary", "Gold"); ("server", "1")]
    true !! "active" = Some "on"
  /\ change_lot_state_payload
       [("active", ""); ("price", "10"); ("summary", "Gold"); ("server", "1")]
       false !! "active" = None.
Proof.
  apply (change_lot_state_activates
           [("active", None); ("price", Some "10")] [("summary", "Gold")]
           [("server", "1")]).
  - reflexivity.
  - apply elem_of_cons. left. reflexivity.
Defined.
